(** * Water-potability rule engine of [ai/ml_server.py]

    A shallow embedding of [get_potability_recommendation] and of the
    Python values it handles, followed by the properties of the
    evaluator: compliance flags, score bands, issue aggregation, the
    two error paths and the independence from temperature and pH. *)

From Stdlib Require Import ZArith QArith String List Bool Lia.
From Stdlib Require Import Floats.SpecFloat.
Import ListNotations.

Local Open Scope string_scope.
Local Open Scope Z_scope.

(** ** Python numbers

    A Python [int] is an unbounded integer; a Python [float] is an IEEE-754
    binary64 value, kept here as sign, mantissa and exponent. *)

Module Number.

Definition prec : Z := 53.
Definition emax : Z := 1024.

Inductive pynum : Type :=
| PyInt (z : Z)
| PyFloat (f : spec_float).

(** The exact value of a number on the extended real line.  NaN has none. *)
Inductive xreal : Type :=
| XNan
| XInf (negative : bool)
| XFin (q : Q).

(** [m * 2^e] as a rational. *)
Definition dyadic (m e : Z) : Q :=
  if 0 <=? e then inject_Z (m * 2 ^ e)
  else Qmake m (Pos.pow 2 (Z.to_pos (- e))).

Definition float_value (f : spec_float) : xreal :=
  match f with
  | S754_zero _ => XFin 0
  | S754_infinity s => XInf s
  | S754_nan => XNan
  | S754_finite s m e => XFin (dyadic (if s then Z.neg m else Z.pos m) e)
  end.

Definition value (n : pynum) : xreal :=
  match n with
  | PyInt z => XFin (inject_Z z)
  | PyFloat f => float_value f
  end.

(** Comparison of two values; [None] when either side is NaN (unordered).
    Python compares [int] with [float] by exact value, and two floats by
    IEEE-754 order, which is the order of their values
    ([NumberFacts.compare_floats_ieee]). *)
Definition xcompare (a b : xreal) : option comparison :=
  match a, b with
  | XNan, _ | _, XNan => None
  | XInf true, XInf true => Some Eq
  | XInf false, XInf false => Some Eq
  | XInf true, _ => Some Lt
  | XInf false, _ => Some Gt
  | _, XInf true => Some Gt
  | _, XInf false => Some Lt
  | XFin p, XFin q => Some (p ?= q)%Q
  end.

Definition compare (a b : pynum) : option comparison :=
  xcompare (value a) (value b).

(** [a <= b], [a < b] and [a > b] on numbers: every comparison with NaN is
    false. *)
Definition le (a b : pynum) : bool :=
  match compare a b with
  | Some Lt | Some Eq => true
  | _ => false
  end.

Definition lt (a b : pynum) : bool :=
  match compare a b with
  | Some Lt => true
  | _ => false
  end.

Definition gt (a b : pynum) : bool :=
  match compare a b with
  | Some Gt => true
  | _ => false
  end.

Definition is_nan (a : pynum) : bool :=
  match value a with
  | XNan => true
  | _ => false
  end.

(** Conversion of an integer to the nearest binary64 float, as Python does
    before mixed arithmetic. *)
Definition of_int (z : Z) : spec_float :=
  binary_normalize prec emax z 0 false.

(** [x - z] for a float [x] and an int [z]. *)
Definition float_sub_int (x : spec_float) (z : Z) : spec_float :=
  SFsub prec emax x (of_int z).

(** Float literals of the source. *)
Definition f0_0 : spec_float := S754_zero false.
Definition f1_0 : spec_float := S754_finite false 4503599627370496 (-52).
Definition f5_0 : spec_float := S754_finite false 5629499534213120 (-50).
Definition f7_0 : spec_float := S754_finite false 7881299347898368 (-50).
Definition f100_0 : spec_float := S754_finite false 7036874417766400 (-46).
Definition f0_8 : spec_float := S754_finite false 7205759403792794 (-53).
Definition f0_85 : spec_float := S754_finite false 7656119366529843 (-53).
Definition nan : spec_float := S754_nan.

(** Python's two-argument [min] and [max] on floats: the second argument
    replaces the first only when it is strictly smaller (larger). *)
Definition py_min (a b : spec_float) : spec_float :=
  if lt (PyFloat b) (PyFloat a) then b else a.

Definition py_max (a b : spec_float) : spec_float :=
  if gt (PyFloat b) (PyFloat a) then b else a.

End Number.

(** ** Python values and exceptions *)

Module Py.
Import Number.

(** The values an argument of the evaluator can hold: a number, or a
    non-numeric object (a string and [None] stand for these). *)
Inductive pyval : Type :=
| PyNum (n : pynum)
| PyStr (s : string)
| PyNone.

Definition type_name (v : pyval) : string :=
  match v with
  | PyNum (PyInt _) => "int"
  | PyNum (PyFloat _) => "float"
  | PyStr _ => "str"
  | PyNone => "NoneType"
  end.

(** A computation that either raises an exception, kept as its message
    [str(e)], or returns a value. *)
Definition exc (A : Type) : Type := (string + A)%type.

Definition ret {A : Type} (a : A) : exc A := inr a.
Definition raise {A : Type} (message : string) : exc A := inl message.
Definition bind {A B : Type} (m : exc A) (k : A -> exc B) : exc B :=
  match m with
  | inl message => inl message
  | inr a => k a
  end.

Declare Scope exc_scope.
Delimit Scope exc_scope with exc.
Notation "x <- m ;; k" := (bind m (fun x => k))
  (at level 61, m at next level, right associativity) : exc_scope.

(** The message of the [TypeError] of an ordering comparison. *)
Definition type_error (op : string) (a b : pyval) : string :=
  "'" ++ op ++ "' not supported between instances of '"
      ++ type_name a ++ "' and '" ++ type_name b ++ "'".

(** [a <= b] and [a > b] where [b] is a numeric literal, as everywhere in
    the evaluator: a number on the left is compared, anything else raises
    [TypeError]. *)
Definition py_le (a : pyval) (b : pynum) : exc bool :=
  match a with
  | PyNum x => ret (le x b)
  | _ => raise (type_error "<=" a (PyNum b))
  end.

Definition py_gt (a : pyval) (b : pynum) : exc bool :=
  match a with
  | PyNum x => ret (gt x b)
  | _ => raise (type_error ">" a (PyNum b))
  end.

(** Reading a local variable that may not have been assigned yet. *)
Definition read_local (name : string) (v : option string) : exc string :=
  match v with
  | Some s => ret s
  | None =>
      raise ("cannot access local variable '" ++ name
             ++ "' where it is not associated with a value")
  end.

End Py.

(** ** The evaluator *)

Module Server.
Import Number Py.
Local Open Scope exc_scope.

(** The dictionaries the evaluator returns, one record per literal. *)
Record who_compliance_t : Type := {
  tds_compliant : bool;
  turbidity_compliant : bool;
  overall_compliant : bool
}.

Record parameters_t : Type := {
  tds_value : pyval;
  turbidity_value : pyval;
  temperature : pyval;
  ph_level : pyval
}.

Record who_guidelines_t : Type := {
  tds_limit : pynum;
  turbidity_limit : pynum
}.

Record ai_info_t : Type := {
  model_version : string;
  training_date : string;
  accuracy : string
}.

Record evaluation : Type := {
  potability_status : string;
  potability_score : spec_float;
  confidence : spec_float;
  risk_level : string;
  recommendation : string;
  action_required : string;
  who_compliance : who_compliance_t;
  parameters : parameters_t;
  who_guidelines : who_guidelines_t;
  ai_info : ai_info_t
}.

(** [Success r] is the dictionary with ['status': 'success'] and the fields
    of [r]; [Error m] is [{'status': 'error', 'message': m}]. *)
Inductive result : Type :=
| Success (r : evaluation)
| Error (message : string).

Definition status (res : result) : string :=
  match res with
  | Success _ => "success"
  | Error _ => "error"
  end.

(** The keys of the returned dictionary, in the order of the literal. *)
Definition keys (res : result) : list string :=
  match res with
  | Success _ =>
      ["status"; "potability_status"; "potability_score"; "confidence";
       "risk_level"; "recommendation"; "action_required"; "who_compliance";
       "parameters"; "who_guidelines"; "ai_info"]
  | Error _ => ["status"; "message"]
  end.

(** The locals that the issue checks update: the two lists and
    [risk_level], which is unbound until a branch assigns it. *)
Record locals : Type := {
  issues : list string;
  actions : list string;
  risk_level_var : option string
}.

(** String literals, one definition per occurrence in the source. *)
Definition models_not_loaded_message : string :=
  "AI models not loaded. Please train models first.".
Definition prediction_failed_prefix : string := "AI prediction failed: ".
Definition tds_issue : string :=
  "Water is NOT potable. TDS exceeds WHO limit. Consider treatment like filtration or chemical disinfection.".
Definition tds_action : string := "TDS treatment required".
Definition turbidity_issue_above_5 : string :=
  "High Turbidity: May contain pathogens, use sediment filters.".
Definition turbidity_action_above_5 : string := "Sediment filtration required".
Definition turbidity_issue_above_1 : string :=
  "High Turbidity: May contain pathogens, use sediment filters.".
Definition turbidity_action_above_1 : string := "Sediment filtration required".
Definition potable_recommendation : string :=
  "Water is POTABLE. No immediate action needed.".

(** TDS scoring: the [if]/[elif] chain on [tds_value]. *)
Definition tds_scoring (tds_value : pyval) (potability_score : spec_float)
  : exc spec_float :=
  c <- py_gt tds_value (PyInt 1200) ;;
  if c then ret (float_sub_int potability_score 50) else
  c <- py_gt tds_value (PyInt 900) ;;
  if c then ret (float_sub_int potability_score 45) else
  c <- py_gt tds_value (PyInt 600) ;;
  if c then ret (float_sub_int potability_score 40) else
  c <- py_gt tds_value (PyInt 500) ;;
  if c then ret (float_sub_int potability_score 35) else
  ret potability_score.

(** Turbidity scoring: the [if]/[elif] chain on [turbidity_value]. *)
Definition turbidity_scoring (turbidity_value : pyval)
  (potability_score : spec_float) : exc spec_float :=
  c <- py_gt turbidity_value (PyInt 50) ;;
  if c then ret (float_sub_int potability_score 50) else
  c <- py_gt turbidity_value (PyInt 10) ;;
  if c then ret (float_sub_int potability_score 45) else
  c <- py_gt turbidity_value (PyInt 5) ;;
  if c then ret (float_sub_int potability_score 40) else
  c <- py_gt turbidity_value (PyFloat f1_0) ;;
  if c then ret (float_sub_int potability_score 35) else
  ret potability_score.

(** [issues.append(i); actions.append(a); risk_level = 'High']. *)
Definition report (i a : string) (st : locals) : locals :=
  {| issues := issues st ++ [i];
     actions := actions st ++ [a];
     risk_level_var := Some "High" |}.

Definition check_tds_issues (tds_value : pyval) (st : locals) : exc locals :=
  c <- py_gt tds_value (PyInt 500) ;;
  if c then ret (report tds_issue tds_action st) else ret st.

Definition check_turbidity_issues (turbidity_value : pyval) (st : locals)
  : exc locals :=
  c <- py_gt turbidity_value (PyFloat f5_0) ;;
  if c then ret (report turbidity_issue_above_5 turbidity_action_above_5 st)
  else
  c <- py_gt turbidity_value (PyFloat f1_0) ;;
  if c then ret (report turbidity_issue_above_1 turbidity_action_above_1 st)
  else ret st.

(** The body of the [try] block. *)
Definition evaluate (tds_value turbidity_value temperature ph_level : pyval)
  : exc evaluation :=
  let tds_limit := PyInt 500 in
  let turbidity_limit := PyFloat f1_0 in
  tds_compliant <- py_le tds_value tds_limit ;;
  turbidity_compliant <- py_le turbidity_value turbidity_limit ;;
  let potability_status :=
    if tds_compliant && turbidity_compliant then "Potable"
    else "Not Potable" in
  let potability_score := f100_0 in
  potability_score <- tds_scoring tds_value potability_score ;;
  potability_score <- turbidity_scoring turbidity_value potability_score ;;
  let potability_score := py_max f0_0 (py_min f100_0 potability_score) in
  let st := {| issues := []; actions := []; risk_level_var := None |} in
  st <- check_tds_issues tds_value st ;;
  st <- check_turbidity_issues turbidity_value st ;;
  let '(risk_level_var, recommendation, action_required) :=
    match issues st with
    | [] => (Some "Low", potable_recommendation, "None")
    | _ :: _ =>
        (risk_level_var st,
         String.concat " " (issues st), String.concat ", " (actions st))
    end in
  let confidence := f0_85 in
  risk_level <- read_local "risk_level" risk_level_var ;;
  ret {| potability_status := potability_status;
         potability_score := potability_score;
         confidence := confidence;
         risk_level := risk_level;
         recommendation := recommendation;
         action_required := action_required;
         who_compliance :=
           {| tds_compliant := tds_compliant;
              turbidity_compliant := turbidity_compliant;
              overall_compliant := tds_compliant && turbidity_compliant |};
         parameters :=
           {| tds_value := tds_value;
              turbidity_value := turbidity_value;
              temperature := temperature;
              ph_level := ph_level |};
         who_guidelines :=
           {| tds_limit := tds_limit; turbidity_limit := turbidity_limit |};
         ai_info :=
           {| model_version := "1.0";
              training_date := "2024-10-21";
              accuracy := "99.5%" |} |}.

(** [get_potability_recommendation]; the global [models_loaded] it reads is
    its first argument here. *)
Definition get_potability_recommendation (models_loaded : bool)
  (tds_value turbidity_value temperature ph_level : pyval) : result :=
  if negb models_loaded then Error models_not_loaded_message
  else
    match evaluate tds_value turbidity_value temperature ph_level with
    | inr r => Success r
    | inl e => Error (prediction_failed_prefix ++ e)
    end.

(** Default arguments, and the call made by the [/test] endpoint. *)
Definition default_temperature : pyval := PyNum (PyInt 25).
Definition default_ph_level : pyval := PyNum (PyFloat f7_0).

Definition test (models_loaded : bool) : result :=
  get_potability_recommendation models_loaded
    (PyNum (PyInt 350)) (PyNum (PyFloat f0_8))
    default_temperature default_ph_level.

End Server.

(** ** Straight-line reading of the evaluator on numbers

    What each block of the evaluator computes once both readings are
    numbers and no comparison can raise; [ServerFacts.evaluate_numeric]
    proves that [Server.evaluate] is this. *)

Module Numeric.
Import Number Py Server.

(** The points the TDS chain subtracts, [None] when no branch is taken. *)
Definition tds_points (tds : pynum) : option Z :=
  if gt tds (PyInt 1200) then Some 50
  else if gt tds (PyInt 900) then Some 45
  else if gt tds (PyInt 600) then Some 40
  else if gt tds (PyInt 500) then Some 35
  else None.

Definition turbidity_points (turbidity : pynum) : option Z :=
  if gt turbidity (PyInt 50) then Some 50
  else if gt turbidity (PyInt 10) then Some 45
  else if gt turbidity (PyInt 5) then Some 40
  else if gt turbidity (PyFloat f1_0) then Some 35
  else None.

Definition deduct (score : spec_float) (points : option Z) : spec_float :=
  match points with
  | Some z => float_sub_int score z
  | None => score
  end.

Definition score_of (tds turbidity : pynum) : spec_float :=
  py_max f0_0
    (py_min f100_0
       (deduct (deduct f100_0 (tds_points tds)) (turbidity_points turbidity))).

(** The locals after the two issue checks. *)
Definition checked (tds turbidity : pynum) : locals :=
  let st := {| issues := []; actions := []; risk_level_var := None |} in
  let st := if gt tds (PyInt 500) then report tds_issue tds_action st
            else st in
  if gt turbidity (PyFloat f5_0)
  then report turbidity_issue_above_5 turbidity_action_above_5 st
  else if gt turbidity (PyFloat f1_0)
  then report turbidity_issue_above_1 turbidity_action_above_1 st
  else st.

Definition evaluation_of (tds turbidity : pynum) (temperature ph_level : pyval)
  : evaluation :=
  let c1 := le tds (PyInt 500) in
  let c2 := le turbidity (PyFloat f1_0) in
  let st := checked tds turbidity in
  {| potability_status := if c1 && c2 then "Potable" else "Not Potable";
     potability_score := score_of tds turbidity;
     confidence := f0_85;
     risk_level := match issues st with [] => "Low" | _ :: _ => "High" end;
     recommendation :=
       match issues st with
       | [] => potable_recommendation
       | _ :: _ => String.concat " " (issues st)
       end;
     action_required :=
       match issues st with
       | [] => "None"
       | _ :: _ => String.concat ", " (actions st)
       end;
     who_compliance :=
       {| tds_compliant := c1;
          turbidity_compliant := c2;
          overall_compliant := c1 && c2 |};
     parameters :=
       {| tds_value := PyNum tds;
          turbidity_value := PyNum turbidity;
          temperature := temperature;
          ph_level := ph_level |};
     who_guidelines :=
       {| tds_limit := PyInt 500; turbidity_limit := PyFloat f1_0 |};
     ai_info :=
       {| model_version := "1.0";
          training_date := "2024-10-21";
          accuracy := "99.5%" |} |}.

(** A result with the echoed temperature and pH replaced. *)
Definition with_temperature_ph (t p : pyval) (res : result) : result :=
  match res with
  | Error m => Error m
  | Success r =>
      Success
        {| potability_status := potability_status r;
           potability_score := potability_score r;
           confidence := confidence r;
           risk_level := risk_level r;
           recommendation := recommendation r;
           action_required := action_required r;
           who_compliance := who_compliance r;
           parameters :=
             {| tds_value := tds_value (parameters r);
                turbidity_value := turbidity_value (parameters r);
                temperature := t;
                ph_level := p |};
           who_guidelines := who_guidelines r;
           ai_info := ai_info r |}
  end.

End Numeric.

(** ** The score and the messages as the specification words them *)

Module Spec.
Import Number Py Server.

Definition clamp (x lo hi : Z) : Z := Z.max lo (Z.min hi x).

(** The band table of the TDS deduction, read top-down; no band holds a
    NaN reading. *)
Definition spec_tds_deduction (tds : pynum) : option Z :=
  if gt tds (PyInt 1200) then Some 50
  else if lt (PyInt 900) tds && le tds (PyInt 1200) then Some 45
  else if lt (PyInt 600) tds && le tds (PyInt 900) then Some 40
  else if lt (PyInt 500) tds && le tds (PyInt 600) then Some 35
  else if le tds (PyInt 500) then Some 0
  else None.

Definition spec_turbidity_deduction (turbidity : pynum) : option Z :=
  if gt turbidity (PyInt 50) then Some 50
  else if lt (PyInt 10) turbidity && le turbidity (PyInt 50) then Some 45
  else if lt (PyInt 5) turbidity && le turbidity (PyInt 10) then Some 40
  else if lt (PyFloat f1_0) turbidity && le turbidity (PyInt 5) then Some 35
  else if le turbidity (PyFloat f1_0) then Some 0
  else None.

(** A reading in no band deducts nothing. *)
Definition points (d : option Z) : Z :=
  match d with
  | Some z => z
  | None => 0
  end.

Definition spec_score (tds turbidity : pynum) : Z :=
  clamp (100 - points (spec_tds_deduction tds)
             - points (spec_turbidity_deduction turbidity)) 0 100.

(** The issue messages and action labels in append order: TDS first. *)
Definition spec_issues (tds turbidity : pynum) : list string :=
  (if gt tds (PyInt 500) then [tds_issue] else [])
  ++ (if gt turbidity (PyFloat f1_0) then [turbidity_issue_above_1] else []).

Definition spec_actions (tds turbidity : pynum) : list string :=
  (if gt tds (PyInt 500) then [tds_action] else [])
  ++ (if gt turbidity (PyFloat f1_0) then [turbidity_action_above_1] else []).

End Spec.

(** ** Loading the models and starting the server *)

Module Startup.

(** A file next to the module, as [os.path.exists] and [joblib.load] see
    it: absent, a pickle that loads to a model, or a file on which the load
    raises an exception with the given message. *)
Inductive file (model : Type) : Type :=
| Missing
| Pickle (m : model)
| Unloadable (message : string).

Arguments Missing {model}.
Arguments Pickle {model} m.
Arguments Unloadable {model} message.

(** The two paths [load_models] reads. *)
Record files (model : Type) : Type := {
  potability_classifier_pkl : file model;
  potability_score_regressor_pkl : file model
}.

Arguments potability_classifier_pkl {model} f.
Arguments potability_score_regressor_pkl {model} f.

(** The module globals. *)
Record globals (model : Type) : Type := {
  classifier_model : option model;
  score_regressor : option model;
  models_loaded : bool
}.

Arguments classifier_model {model} g.
Arguments score_regressor {model} g.
Arguments models_loaded {model} g.

(** The globals right after the module is imported. *)
Definition initial_globals {model : Type} : globals model :=
  {| classifier_model := None;
     score_regressor := None;
     models_loaded := false |}.

(** [load_models]: the returned flag and the globals it leaves.  The lines
    it prints are not kept. *)
Definition load_models {model : Type} (fs : files model) (g : globals model)
  : bool * globals model :=
  match potability_classifier_pkl fs with
  | Missing => (false, g)
  | Unloadable _ => (false, g)
  | Pickle c =>
      let g := {| classifier_model := Some c;
                  score_regressor := score_regressor g;
                  models_loaded := models_loaded g |} in
      match potability_score_regressor_pkl fs with
      | Missing => (false, g)
      | Unloadable _ => (false, g)
      | Pickle r =>
          (true,
           {| classifier_model := classifier_model g;
              score_regressor := Some r;
              models_loaded := true |})
      end
  end.

(** The [__main__] block: the server runs with the loaded globals, or the
    process exits with a status. *)
Inductive outcome (model : Type) : Type :=
| Serving (g : globals model)
| Exited (code : Z).

Arguments Serving {model} g.
Arguments Exited {model} code.

Definition main {model : Type} (fs : files model) (g : globals model)
  : outcome model :=
  let '(ok, g) := load_models fs g in
  if ok then Serving g else Exited 1.

End Startup.

(** ** The HTTP endpoints *)

Module Http.
Import Number Py Server Startup.

(** The objects an endpoint converts with [float]: a value of the query
    string (always a string), a value of the JSON body, or a default. *)
#[local] Unset Elimination Schemes.
Inductive pyobj : Type :=
| ONone
| OBool (b : bool)
| OInt (z : Z)
| OFloat (f : spec_float)
| OStr (s : string)
| OList (items : list pyobj)
| ODict (items : list (string * pyobj)).
#[local] Set Elimination Schemes.

(** Exceptions that no handler catches; the request then fails. *)
Inductive pyexn : Type :=
| ValueError
| TypeError
| OverflowError
| AttributeError.

Definition raising (A : Type) : Type := (pyexn + A)%type.

Definition and_then {A B : Type} (m : raising A) (k : A -> raising B)
  : raising B :=
  match m with
  | inl e => inl e
  | inr a => k a
  end.

Declare Scope raising_scope.
Delimit Scope raising_scope with raising.
Notation "x <-- m ;; k" := (and_then m (fun x => k))
  (at level 61, m at next level, right associativity) : raising_scope.
Local Open Scope raising_scope.

(** The first value bound to [key], as [request.args.get] and [dict.get]
    find it. *)
Fixpoint lookup {A : Type} (items : list (string * A)) (key : string)
  : option A :=
  match items with
  | [] => None
  | (k, v) :: rest => if String.eqb k key then Some v else lookup rest key
  end.

(** [request.args.get(key, default)]. *)
Definition args_get (args : list (string * string)) (key : string)
  (default : pyobj) : pyobj :=
  match lookup args key with
  | Some s => OStr s
  | None => default
  end.

(** [data.get(key, default)]: only a dictionary has [get]. *)
Definition data_get (data : pyobj) (key : string) (default : pyobj)
  : raising pyobj :=
  match data with
  | ODict items =>
      match lookup items key with
      | Some v => inr v
      | None => inr default
      end
  | _ => inl AttributeError
  end.

(** What [predict] reads from the request: the query arguments of a GET,
    or the value that [request.get_json()] returned for a POST. *)
Inductive payload : Type :=
| Get (args : list (string * string))
| Post (data : pyobj).

Inductive request : Type :=
| Home
| Predict (p : payload)
| Status
| Health
| Test.

(** What the handlers of [/status] and [/health] read from the process. *)
Record environment : Type := {
  now_isoformat : string;
  sys_version : string;
  getcwd : string
}.

(** The dictionaries passed to [jsonify]. *)
Inductive response : Type :=
| HomeBody (message status : string) (models_loaded : bool)
    (endpoints : list (string * string))
| ResultBody (res : result)
| StatusBody (status : string) (models_loaded : bool)
    (timestamp python_version working_directory : string)
| HealthBody (status : string) (models_loaded : bool) (timestamp : string).

(** The [models_loaded] entry of a body, when it has one. *)
Definition reported_models_loaded (r : response) : option bool :=
  match r with
  | HomeBody _ _ b _ | StatusBody _ b _ _ _ | HealthBody _ b _ => Some b
  | ResultBody _ => None
  end.

Section Endpoints.

(** The reading of a string by [float], [None] when it raises
    [ValueError]. *)
Variable parse_float : string -> option spec_float.

Variable model : Type.

(** [float(x)]. *)
Definition py_float (x : pyobj) : raising spec_float :=
  match x with
  | OFloat f => inr f
  | OInt z =>
      match of_int z with
      | S754_infinity _ => inl OverflowError
      | f => inr f
      end
  | OBool b => inr (if b then f1_0 else f0_0)
  | OStr s =>
      match parse_float s with
      | Some f => inr f
      | None => inl ValueError
      end
  | ONone | OList _ | ODict _ => inl TypeError
  end.

Definition home (g : globals model) : response :=
  HomeBody "Water Potability AI Server" "running" (models_loaded g)
    [("/predict", "GET/POST - Get potability recommendation");
     ("/status", "GET - Server status");
     ("/health", "GET - Health check")].

Definition predict (g : globals model) (p : payload) : raising response :=
  values <--
    match p with
    | Get args =>
        tds_value <-- py_float (args_get args "tds" (OInt 350)) ;;
        turbidity_value <--
          py_float (args_get args "turbidity" (OFloat f0_8)) ;;
        temperature <-- py_float (args_get args "temperature" (OInt 25)) ;;
        ph_level <-- py_float (args_get args "ph" (OFloat f7_0)) ;;
        inr (tds_value, turbidity_value, temperature, ph_level)
    | Post data =>
        tds_value <-- (v <-- data_get data "tds_value" (OInt 350) ;;
                       py_float v) ;;
        turbidity_value <-- (v <-- data_get data "turbidity_value"
                                     (OFloat f0_8) ;;
                             py_float v) ;;
        temperature <-- (v <-- data_get data "temperature" (OInt 25) ;;
                         py_float v) ;;
        ph_level <-- (v <-- data_get data "ph_level" (OFloat f7_0) ;;
                      py_float v) ;;
        inr (tds_value, turbidity_value, temperature, ph_level)
    end ;;
  let '(tds_value, turbidity_value, temperature, ph_level) := values in
  let result :=
    get_potability_recommendation (models_loaded g)
      (PyNum (PyFloat tds_value)) (PyNum (PyFloat turbidity_value))
      (PyNum (PyFloat temperature)) (PyNum (PyFloat ph_level)) in
  inr (ResultBody result).

Definition status (g : globals model) (env : environment) : response :=
  StatusBody "running" (models_loaded g)
    (now_isoformat env) (sys_version env) (getcwd env).

Definition health (g : globals model) (env : environment) : response :=
  HealthBody "healthy" (models_loaded g) (now_isoformat env).

Definition test (g : globals model) : response :=
  ResultBody
    (get_potability_recommendation (models_loaded g)
       (PyNum (PyInt 350)) (PyNum (PyFloat f0_8))
       default_temperature default_ph_level).

(** Dispatch of a request to its handler. *)
Definition handle (g : globals model) (env : environment) (req : request)
  : raising response :=
  match req with
  | Home => inr (home g)
  | Predict p => predict g p
  | Status => inr (status g env)
  | Health => inr (health g env)
  | Test => inr (test g)
  end.

(** The server started by [main] on the given files answering a sequence
    of requests; [None] when the process exits instead. *)
Definition run (fs : files model)
  (requests : list (environment * request))
  : option (list (raising response)) :=
  match main fs initial_globals with
  | Serving g => Some (map (fun '(env, req) => handle g env req) requests)
  | Exited _ => None
  end.

End Endpoints.

End Http.

(** ** Order facts about Python numbers *)

Module NumberFacts.
Import Number.

Lemma xcompare_antisym (a b : xreal) :
  xcompare b a = option_map CompOpp (xcompare a b).
Proof.
  destruct a as [|[|]|p], b as [|[|]|q]; simpl; try reflexivity.
  now rewrite <- Qcompare_antisym.
Qed.

Lemma compare_antisym (a b : pynum) :
  compare b a = option_map CompOpp (compare a b).
Proof. apply xcompare_antisym. Qed.

(** [b < a] is [a > b]. *)
Lemma lt_gt (a b : pynum) : lt b a = gt a b.
Proof.
  unfold lt, gt. rewrite (compare_antisym a b).
  now destruct (compare a b) as [[| |]|].
Qed.

(** [a <= b] and [a > b] exclude each other. *)
Lemma le_true_gt_false (a b : pynum) : le a b = true -> gt a b = false.
Proof. unfold le, gt. now destruct (compare a b) as [[| |]|]. Qed.

Lemma gt_true_le_false (a b : pynum) : gt a b = true -> le a b = false.
Proof. unfold le, gt. now destruct (compare a b) as [[| |]|]. Qed.

(** Away from NaN, [a > b] is the negation of [a <= b]. *)
Lemma gt_negb_le (a b : pynum) :
  is_nan a = false -> is_nan b = false -> gt a b = negb (le a b).
Proof.
  unfold is_nan, le, gt, compare.
  destruct (value a) as [|[|]|p], (value b) as [|[|]|q]; simpl;
    try discriminate; try reflexivity.
  intros _ _. now destruct (p ?= q)%Q.
Qed.

(** Both [a <= b] and [a > b] fail only when one side is NaN. *)
Lemma unordered_nan (a b : pynum) :
  le a b = false -> gt a b = false -> is_nan a || is_nan b = true.
Proof.
  unfold is_nan, le, gt, compare.
  destruct (value a) as [|[|]|p], (value b) as [|[|]|q]; simpl;
    try discriminate; try reflexivity.
  now destruct (p ?= q)%Q.
Qed.

Lemma nan_le (a b : pynum) : is_nan a = true -> le a b = false.
Proof.
  unfold is_nan, le, compare. now destruct (value a) as [|[|]|p].
Qed.

Lemma nan_gt (a b : pynum) : is_nan a = true -> gt a b = false.
Proof.
  unfold is_nan, gt, compare. now destruct (value a) as [|[|]|p].
Qed.

Lemma xcompare_gt_trans (x b a : xreal) :
  xcompare x b = Some Gt ->
  (xcompare a b = Some Lt \/ xcompare a b = Some Eq) ->
  xcompare x a = Some Gt.
Proof.
  destruct x as [|[|]|p], b as [|[|]|q], a as [|[|]|r]; simpl;
    intros H [K|K]; try discriminate; try reflexivity.
  - injection H as H. injection K as K. f_equal.
    apply Qgt_alt. apply Qgt_alt in H. apply Qlt_alt in K.
    now apply Qlt_trans with q.
  - injection H as H. injection K as K. f_equal.
    apply Qgt_alt. apply Qgt_alt in H. apply Qeq_alt in K.
    now rewrite K.
Qed.

(** Monotonicity in the threshold: above [b] and [a <= b] give above [a]. *)
Lemma gt_weaken (x b a : pynum) :
  gt x b = true -> le a b = true -> gt x a = true.
Proof.
  unfold gt, le, compare. intros H K.
  rewrite (xcompare_gt_trans (value x) (value b) (value a)); trivial.
  - now destruct (xcompare (value x) (value b)) as [[| |]|].
  - destruct (xcompare (value a) (value b)) as [[| |]|]; auto; discriminate.
Qed.

(** Its contrapositive: not above [a] and [a <= b] give not above [b]. *)
Lemma not_gt_strengthen (x a b : pynum) :
  gt x a = false -> le a b = true -> gt x b = false.
Proof.
  intros H K. destruct (gt x b) eqn:E; trivial.
  now rewrite (gt_weaken x b a E K) in H.
Qed.

Lemma gt_true_not_nan (a b : pynum) : gt a b = true -> is_nan a = false.
Proof.
  intros H. destruct (is_nan a) eqn:E; trivial.
  now rewrite (nan_gt a b E) in H.
Qed.

(** Above [a] and not above [b]: at most [b]. *)
Lemma gt_false_le_true (x a b : pynum) :
  gt x a = true -> is_nan b = false -> gt x b = false -> le x b = true.
Proof.
  intros H Nb K. apply gt_true_not_nan in H.
  rewrite (gt_negb_le x b H Nb) in K. now destruct (le x b).
Qed.

(** *** The order of values is the IEEE-754 order

    [Number.compare] orders floats by value.  On valid binary64 floats
    this is the comparison of the standard, [SFcompare]. *)

Lemma digits2_pos_bounds (m : positive) :
  2 ^ (Z.pos (digits2_pos m) - 1) <= Z.pos m < 2 ^ Z.pos (digits2_pos m).
Proof.
  induction m as [m IH|m IH|]; simpl digits2_pos.
  - rewrite Pos2Z.inj_succ.
    replace (Z.succ (Z.pos (digits2_pos m)) - 1)
      with (Z.succ (Z.pos (digits2_pos m) - 1)) by lia.
    rewrite !Z.pow_succ_r by lia. lia.
  - rewrite Pos2Z.inj_succ.
    replace (Z.succ (Z.pos (digits2_pos m)) - 1)
      with (Z.succ (Z.pos (digits2_pos m) - 1)) by lia.
    rewrite !Z.pow_succ_r by lia. lia.
  - simpl. lia.
Qed.

(** A canonical mantissa has at most 53 bits, and exactly 53 above the
    smallest exponent. *)
Lemma bounded_mantissa (m : positive) (e : Z) :
  bounded prec emax m e = true ->
  emin prec emax <= e
  /\ Z.pos m < 2 ^ 53
  /\ (emin prec emax < e -> 2 ^ 52 <= Z.pos m).
Proof.
  unfold bounded, canonical_mantissa, fexp. intros H.
  apply andb_prop in H. destruct H as [H _]. apply Z.eqb_eq in H.
  pose proof (digits2_pos_bounds m) as [L U].
  set (d := Z.pos (digits2_pos m)) in *.
  assert (D : d <= 53 /\ (emin prec emax < e -> d = 53)).
  { change prec with 53 in *. split; lia. }
  destruct D as [D1 D2]. split; [lia|]. split.
  - apply Z.lt_le_trans with (2 ^ d); [exact U|].
    apply Z.pow_le_mono_r; lia.
  - intros K. rewrite (D2 K) in L. exact L.
Qed.

Lemma dyadic_scaled (m e k : Z) :
  0 <= k -> 0 <= e + k ->
  (dyadic m e == Qmake (m * 2 ^ (e + k)) (Z.to_pos (2 ^ k)))%Q.
Proof.
  intros Hk Hek. unfold dyadic, Qeq.
  assert (P : 0 < 2 ^ k) by (apply Z.pow_pos_nonneg; lia).
  destruct (0 <=? e) eqn:E; simpl Qnum; simpl Qden.
  - apply Z.leb_le in E.
    rewrite Z2Pos.id by exact P. rewrite Z.pow_add_r by lia. ring.
  - apply Z.leb_gt in E.
    rewrite Z2Pos.id by exact P.
    rewrite Pos2Z.inj_pow, Z2Pos.id by lia.
    replace k with ((e + k) + (- e)) at 1 by lia.
    rewrite Z.pow_add_r by lia. ring.
Qed.

Lemma dyadic_compare (m1 e1 m2 e2 k : Z) :
  0 <= k -> 0 <= e1 + k -> 0 <= e2 + k ->
  (dyadic m1 e1 ?= dyadic m2 e2)%Q
  = (m1 * 2 ^ (e1 + k) ?= m2 * 2 ^ (e2 + k)).
Proof.
  intros Hk H1 H2.
  rewrite (dyadic_scaled m1 e1 k Hk H1), (dyadic_scaled m2 e2 k Hk H2).
  unfold Qcompare; simpl Qnum; simpl Qden.
  symmetry. apply Zmult_compare_compat_r. reflexivity.
Qed.

(** Order of two positive canonical floats: exponents first. *)
Lemma canonical_compare (m1 m2 : positive) (e1 e2 : Z) :
  bounded prec emax m1 e1 = true ->
  bounded prec emax m2 e2 = true ->
  (Z.pos m1 * 2 ^ (e1 + 1074) ?= Z.pos m2 * 2 ^ (e2 + 1074))
  = match e1 ?= e2 with
    | Lt => Lt
    | Gt => Gt
    | Eq => Pos.compare_cont Eq m1 m2
    end.
Proof.
  intros B1 B2.
  destruct (bounded_mantissa m1 e1 B1) as [L1 [U1 N1]].
  destruct (bounded_mantissa m2 e2 B2) as [L2 [U2 N2]].
  change (emin prec emax) with (-1074) in *.
  destruct (Z.compare_spec e1 e2) as [E|E|E].
  - subst e2. rewrite <- Zmult_compare_compat_r
      by (apply Z.lt_gt, Z.pow_pos_nonneg; lia).
    reflexivity.
  - apply Z.compare_lt_iff.
    assert (P : 0 < 2 ^ (e1 + 1074)) by (apply Z.pow_pos_nonneg; lia).
    assert (S : 2 * 2 ^ (e1 + 1074) <= 2 ^ (e2 + 1074)).
    { rewrite <- Z.pow_succ_r by lia. apply Z.pow_le_mono_r; lia. }
    assert (M : 2 ^ 52 <= Z.pos m2) by (apply N2; lia).
    change (2 ^ 53) with (2 * 2 ^ 52) in U1.
    nia.
  - apply Z.compare_gt_iff.
    assert (P : 0 < 2 ^ (e2 + 1074)) by (apply Z.pow_pos_nonneg; lia).
    assert (S : 2 * 2 ^ (e2 + 1074) <= 2 ^ (e1 + 1074)).
    { rewrite <- Z.pow_succ_r by lia. apply Z.pow_le_mono_r; lia. }
    assert (M : 2 ^ 52 <= Z.pos m1) by (apply N1; lia).
    change (2 ^ 53) with (2 * 2 ^ 52) in U2.
    nia.
Qed.

(** On binary64 floats the order of the values is the IEEE-754 order. *)
Lemma compare_floats_ieee (f1 f2 : spec_float) :
  valid_binary prec emax f1 = true ->
  valid_binary prec emax f2 = true ->
  compare (PyFloat f1) (PyFloat f2) = SFcompare f1 f2.
Proof.
  unfold compare.
  destruct f1 as [s1|s1| |s1 m1 e1], f2 as [s2|s2| |s2 m2 e2];
    simpl; intros B1 B2; try reflexivity;
    try (destruct s1; reflexivity); try (destruct s2; reflexivity);
    try (destruct s1, s2; reflexivity).
  all: f_equal.
  - destruct (bounded_mantissa m2 e2 B2) as [L2 _].
    change (emin prec emax) with (-1074) in L2.
    change 0%Q with (dyadic 0 0).
    rewrite (dyadic_compare 0 0 _ e2 1074) by lia.
    assert (P : 0 < 2 ^ (e2 + 1074)) by (apply Z.pow_pos_nonneg; lia).
    destruct s2; [apply Z.compare_gt_iff | apply Z.compare_lt_iff]; nia.
  - destruct (bounded_mantissa m1 e1 B1) as [L1 _].
    change (emin prec emax) with (-1074) in L1.
    change 0%Q with (dyadic 0 0).
    rewrite (dyadic_compare _ e1 0 0 1074) by lia.
    assert (P : 0 < 2 ^ (e1 + 1074)) by (apply Z.pow_pos_nonneg; lia).
    destruct s1; [apply Z.compare_lt_iff | apply Z.compare_gt_iff]; nia.
  - destruct (bounded_mantissa m1 e1 B1) as [L1 _].
    destruct (bounded_mantissa m2 e2 B2) as [L2 _].
    change (emin prec emax) with (-1074) in L1, L2.
    rewrite (dyadic_compare _ e1 _ e2 1074) by lia.
    assert (P1 : 0 < 2 ^ (e1 + 1074)) by (apply Z.pow_pos_nonneg; lia).
    assert (P2 : 0 < 2 ^ (e2 + 1074)) by (apply Z.pow_pos_nonneg; lia).
    destruct s1, s2.
    + change (Z.neg m1) with (- Z.pos m1). change (Z.neg m2) with (- Z.pos m2).
      rewrite !Z.mul_opp_l, Z.compare_opp, Z.compare_antisym.
      rewrite (canonical_compare m1 m2 e1 e2 B1 B2).
      now destruct (e1 ?= e2).
    + apply Z.compare_lt_iff. nia.
    + apply Z.compare_gt_iff. nia.
    + apply canonical_compare; assumption.
Qed.

(** The float literals of the source are valid binary64 values, the ones
    nearest to the decimals written in the source. *)
Lemma literals_valid :
  forallb (valid_binary prec emax)
    [f0_0; f1_0; f5_0; f7_0; f100_0; f0_8; f0_85; nan] = true.
Proof. reflexivity. Qed.

Lemma literals_values :
  of_int 0 = f0_0 /\ of_int 1 = f1_0 /\ of_int 5 = f5_0
  /\ of_int 7 = f7_0 /\ of_int 100 = f100_0
  /\ SFdiv prec emax (of_int 8) (of_int 10) = f0_8
  /\ SFdiv prec emax (of_int 85) (of_int 100) = f0_85.
Proof. repeat split; vm_compute; reflexivity. Qed.

End NumberFacts.

(** ** Facts about the evaluator *)

Module ServerFacts.
Import Number Py Server Numeric Spec NumberFacts.

(** *** Running the evaluator *)

Lemma tds_scoring_numeric (tds : pynum) (s : spec_float) :
  tds_scoring (PyNum tds) s = inr (deduct s (tds_points tds)).
Proof.
  unfold tds_scoring, tds_points, py_gt, ret, bind.
  destruct (gt tds (PyInt 1200)); [reflexivity|].
  destruct (gt tds (PyInt 900)); [reflexivity|].
  destruct (gt tds (PyInt 600)); [reflexivity|].
  destruct (gt tds (PyInt 500)); reflexivity.
Qed.

Lemma turbidity_scoring_numeric (turbidity : pynum) (s : spec_float) :
  turbidity_scoring (PyNum turbidity) s
  = inr (deduct s (turbidity_points turbidity)).
Proof.
  unfold turbidity_scoring, turbidity_points, py_gt, ret, bind.
  destruct (gt turbidity (PyInt 50)); [reflexivity|].
  destruct (gt turbidity (PyInt 10)); [reflexivity|].
  destruct (gt turbidity (PyInt 5)); [reflexivity|].
  destruct (gt turbidity (PyFloat f1_0)); reflexivity.
Qed.

Lemma check_tds_issues_numeric (tds : pynum) (st : locals) :
  check_tds_issues (PyNum tds) st
  = inr (if gt tds (PyInt 500) then report tds_issue tds_action st else st).
Proof.
  unfold check_tds_issues, py_gt, ret, bind.
  destruct (gt tds (PyInt 500)); reflexivity.
Qed.

Lemma check_turbidity_issues_numeric (turbidity : pynum) (st : locals) :
  check_turbidity_issues (PyNum turbidity) st
  = inr (if gt turbidity (PyFloat f5_0)
         then report turbidity_issue_above_5 turbidity_action_above_5 st
         else if gt turbidity (PyFloat f1_0)
         then report turbidity_issue_above_1 turbidity_action_above_1 st
         else st).
Proof.
  unfold check_turbidity_issues, py_gt, ret, bind.
  destruct (gt turbidity (PyFloat f5_0)); [reflexivity|].
  destruct (gt turbidity (PyFloat f1_0)); reflexivity.
Qed.

(** On two numbers no comparison raises, [risk_level] is bound when it is
    read, and the evaluator returns [evaluation_of]. *)
Lemma evaluate_numeric (tds turbidity : pynum) (t p : pyval) :
  evaluate (PyNum tds) (PyNum turbidity) t p
  = inr (evaluation_of tds turbidity t p).
Proof.
  unfold evaluate. cbn [py_le ret bind].
  rewrite tds_scoring_numeric. cbn [bind].
  rewrite turbidity_scoring_numeric. cbn [bind].
  rewrite check_tds_issues_numeric. cbn [bind].
  rewrite check_turbidity_issues_numeric. cbn [bind].
  unfold evaluation_of, checked, score_of.
  destruct (gt tds (PyInt 500)), (gt turbidity (PyFloat f5_0)),
    (gt turbidity (PyFloat f1_0)); reflexivity.
Qed.

Lemma get_numeric (tds turbidity : pynum) (t p : pyval) :
  get_potability_recommendation true (PyNum tds) (PyNum turbidity) t p
  = Success (evaluation_of tds turbidity t p).
Proof.
  unfold get_potability_recommendation. now rewrite evaluate_numeric.
Qed.


Lemma evaluate_turbidity_not_a_number (tds : pynum) (turbidity t p : pyval) :
  (forall n, turbidity <> PyNum n) ->
  evaluate (PyNum tds) turbidity t p
  = inl (type_error "<=" turbidity (PyNum (PyFloat f1_0))).
Proof.
  intros H. destruct turbidity as [n| |]; [now elim (H n)| |]; reflexivity.
Qed.

(** The exceptions of the [try] block: only the two [<=] comparisons can
    raise, and only on a reading that is not a number. *)
Lemma evaluate_raises (tds turbidity t p : pyval) (cause : string) :
  evaluate tds turbidity t p = inl cause ->
  (cause = type_error "<=" tds (PyNum (PyInt 500))
   /\ forall n, tds <> PyNum n)
  \/ (cause = type_error "<=" turbidity (PyNum (PyFloat f1_0))
      /\ forall n, turbidity <> PyNum n).
Proof.
  destruct tds as [n1| |]; destruct turbidity as [n2| |]; intros H.
  1: now rewrite evaluate_numeric in H.
  1, 2: right; injection H as <-; split; [reflexivity | discriminate].
  all: left; injection H as <-; split; [reflexivity | discriminate].
Qed.

(** The temperature and the pH are only copied into [parameters]. *)
Lemma evaluate_temperature_ph (tds turbidity t1 p1 t2 p2 : pyval) :
  get_potability_recommendation true tds turbidity t2 p2
  = with_temperature_ph t2 p2
      (get_potability_recommendation true tds turbidity t1 p1).
Proof.
  destruct tds as [n1| |]; destruct turbidity as [n2| |];
    try reflexivity.
  now rewrite !get_numeric.
Qed.

(** *** Bands *)

Ltac const_le := vm_compute; reflexivity.

Lemma tds_points_compliant (tds : pynum) :
  le tds (PyInt 500) = true -> tds_points tds = None.
Proof.
  intros H. apply le_true_gt_false in H. unfold tds_points.
  rewrite (not_gt_strengthen tds (PyInt 500) (PyInt 1200) H) by const_le.
  rewrite (not_gt_strengthen tds (PyInt 500) (PyInt 900) H) by const_le.
  rewrite (not_gt_strengthen tds (PyInt 500) (PyInt 600) H) by const_le.
  now rewrite H.
Qed.

Lemma turbidity_points_compliant (turbidity : pynum) :
  le turbidity (PyFloat f1_0) = true -> turbidity_points turbidity = None.
Proof.
  intros H. apply le_true_gt_false in H. unfold turbidity_points.
  rewrite (not_gt_strengthen turbidity (PyFloat f1_0) (PyInt 50) H)
    by const_le.
  rewrite (not_gt_strengthen turbidity (PyFloat f1_0) (PyInt 10) H)
    by const_le.
  rewrite (not_gt_strengthen turbidity (PyFloat f1_0) (PyInt 5) H)
    by const_le.
  now rewrite H.
Qed.

(** Above the limit some branch of the chain is taken, and it subtracts
    35, 40, 45 or 50. *)
Lemma tds_points_violation (tds : pynum) :
  gt tds (PyInt 500) = true ->
  In (tds_points tds) [Some 50; Some 45; Some 40; Some 35].
Proof.
  intros H. unfold tds_points. rewrite H.
  destruct (gt tds (PyInt 1200)); [simpl; tauto|].
  destruct (gt tds (PyInt 900)); [simpl; tauto|].
  destruct (gt tds (PyInt 600)); simpl; tauto.
Qed.

Lemma turbidity_points_violation (turbidity : pynum) :
  gt turbidity (PyFloat f1_0) = true ->
  In (turbidity_points turbidity) [Some 50; Some 45; Some 40; Some 35].
Proof.
  intros H. unfold turbidity_points. rewrite H.
  destruct (gt turbidity (PyInt 50)); [simpl; tauto|].
  destruct (gt turbidity (PyInt 10)); [simpl; tauto|].
  destruct (gt turbidity (PyInt 5)); simpl; tauto.
Qed.

Lemma tds_points_range (tds : pynum) :
  In (tds_points tds) [Some 50; Some 45; Some 40; Some 35; None].
Proof.
  unfold tds_points.
  destruct (gt tds (PyInt 1200)); [simpl; tauto|].
  destruct (gt tds (PyInt 900)); [simpl; tauto|].
  destruct (gt tds (PyInt 600)); [simpl; tauto|].
  destruct (gt tds (PyInt 500)); simpl; tauto.
Qed.

Lemma turbidity_points_range (turbidity : pynum) :
  In (turbidity_points turbidity) [Some 50; Some 45; Some 40; Some 35; None].
Proof.
  unfold turbidity_points.
  destruct (gt turbidity (PyInt 50)); [simpl; tauto|].
  destruct (gt turbidity (PyInt 10)); [simpl; tauto|].
  destruct (gt turbidity (PyInt 5)); [simpl; tauto|].
  destruct (gt turbidity (PyFloat f1_0)); simpl; tauto.
Qed.

(** Case analysis on a membership in an explicit list. *)
Ltac in_cases H :=
  simpl in H;
  repeat (destruct H as [H|H]; [try rewrite <- H; clear H|]);
  try contradiction.

(** The band table of the specification and the chain of the code give
    the same points. *)
Lemma spec_tds_points (tds : pynum) :
  points (spec_tds_deduction tds) = points (tds_points tds).
Proof.
  unfold spec_tds_deduction, tds_points. rewrite !lt_gt.
  destruct (gt tds (PyInt 1200)) eqn:G1; [reflexivity|].
  destruct (gt tds (PyInt 900)) eqn:G2.
  { now rewrite (gt_false_le_true tds (PyInt 900) (PyInt 1200) G2 eq_refl G1). }
  destruct (gt tds (PyInt 600)) eqn:G3.
  { now rewrite (gt_false_le_true tds (PyInt 600) (PyInt 900) G3 eq_refl G2). }
  destruct (gt tds (PyInt 500)) eqn:G4.
  { now rewrite (gt_false_le_true tds (PyInt 500) (PyInt 600) G4 eq_refl G3). }
  simpl. now destruct (le tds (PyInt 500)).
Qed.

Lemma spec_turbidity_points (turbidity : pynum) :
  points (spec_turbidity_deduction turbidity)
  = points (turbidity_points turbidity).
Proof.
  unfold spec_turbidity_deduction, turbidity_points. rewrite !lt_gt.
  destruct (gt turbidity (PyInt 50)) eqn:G1; [reflexivity|].
  destruct (gt turbidity (PyInt 10)) eqn:G2.
  { now rewrite (gt_false_le_true turbidity (PyInt 10) (PyInt 50)
                   G2 eq_refl G1). }
  destruct (gt turbidity (PyInt 5)) eqn:G3.
  { now rewrite (gt_false_le_true turbidity (PyInt 5) (PyInt 10)
                   G3 eq_refl G2). }
  destruct (gt turbidity (PyFloat f1_0)) eqn:G4.
  { now rewrite (gt_false_le_true turbidity (PyFloat f1_0) (PyInt 5)
                   G4 eq_refl G3). }
  simpl. now destruct (le turbidity (PyFloat f1_0)).
Qed.

(** Every reading but NaN lies in exactly one band of the table. *)
Lemma spec_tds_deduction_defined (tds : pynum) :
  match spec_tds_deduction tds with Some _ => true | None => false end
  = negb (is_nan tds).
Proof.
  unfold spec_tds_deduction. rewrite !lt_gt.
  destruct (is_nan tds) eqn:N.
  - now rewrite !(nan_gt tds _ N), !(nan_le tds _ N).
  - rewrite (gt_negb_le tds (PyInt 500) N eq_refl).
    destruct (gt tds (PyInt 1200)) eqn:G1; [reflexivity|].
    rewrite (gt_negb_le tds (PyInt 1200) N eq_refl) in G1.
    destruct (le tds (PyInt 1200)); [|discriminate].
    destruct (gt tds (PyInt 900)) eqn:G2; [reflexivity|].
    rewrite (gt_negb_le tds (PyInt 900) N eq_refl) in G2.
    destruct (le tds (PyInt 900)); [|discriminate].
    destruct (gt tds (PyInt 600)) eqn:G3; [reflexivity|].
    rewrite (gt_negb_le tds (PyInt 600) N eq_refl) in G3.
    destruct (le tds (PyInt 600)); [|discriminate].
    simpl. now destruct (le tds (PyInt 500)).
Qed.

Lemma spec_turbidity_deduction_defined (turbidity : pynum) :
  match spec_turbidity_deduction turbidity with
  | Some _ => true
  | None => false
  end = negb (is_nan turbidity).
Proof.
  unfold spec_turbidity_deduction. rewrite !lt_gt.
  destruct (is_nan turbidity) eqn:N.
  - now rewrite !(nan_gt turbidity _ N), !(nan_le turbidity _ N).
  - rewrite (gt_negb_le turbidity (PyFloat f1_0) N eq_refl).
    destruct (gt turbidity (PyInt 50)) eqn:G1; [reflexivity|].
    rewrite (gt_negb_le turbidity (PyInt 50) N eq_refl) in G1.
    destruct (le turbidity (PyInt 50)); [|discriminate].
    destruct (gt turbidity (PyInt 10)) eqn:G2; [reflexivity|].
    rewrite (gt_negb_le turbidity (PyInt 10) N eq_refl) in G2.
    destruct (le turbidity (PyInt 10)); [|discriminate].
    destruct (gt turbidity (PyInt 5)) eqn:G3; [reflexivity|].
    rewrite (gt_negb_le turbidity (PyInt 5) N eq_refl) in G3.
    destruct (le turbidity (PyInt 5)); [|discriminate].
    simpl. now destruct (le turbidity (PyFloat f1_0)).
Qed.

(** Subtracting the points in floating point and clamping with [min] and
    [max] is exact on the 25 pairs of points. *)
Lemma score_of_points (tds turbidity : pynum) :
  score_of tds turbidity
  = of_int (clamp (100 - points (tds_points tds)
                       - points (turbidity_points turbidity)) 0 100).
Proof.
  unfold score_of.
  pose proof (tds_points_range tds) as R1.
  pose proof (turbidity_points_range turbidity) as R2.
  in_cases R1; in_cases R2; vm_compute; reflexivity.
Qed.

(** *** Issue checks *)

Lemma checked_flags (tds turbidity : pynum) :
  issues (checked tds turbidity) = spec_issues tds turbidity
  /\ actions (checked tds turbidity) = spec_actions tds turbidity.
Proof.
  unfold checked, spec_issues, spec_actions.
  destruct (gt turbidity (PyFloat f5_0)) eqn:E5.
  - rewrite (gt_weaken turbidity (PyFloat f5_0) (PyFloat f1_0) E5)
      by const_le.
    destruct (gt tds (PyInt 500)); split; reflexivity.
  - destruct (gt tds (PyInt 500)), (gt turbidity (PyFloat f1_0));
      split; reflexivity.
Qed.

Lemma spec_issues_empty (tds turbidity : pynum) :
  spec_issues tds turbidity = []
  <-> gt tds (PyInt 500) = false /\ gt turbidity (PyFloat f1_0) = false.
Proof.
  unfold spec_issues.
  destruct (gt tds (PyInt 500)), (gt turbidity (PyFloat f1_0)); simpl;
    split; intros H; try discriminate; try tauto;
    destruct H; discriminate.
Qed.

End ServerFacts.

(** ** Properties of the evaluator *)

Module Properties.
Import Number Py Server Numeric Spec NumberFacts ServerFacts.

(** C1. For every pair of numeric readings the evaluator succeeds and its
    result has [tds_compliant = (tds <= 500)],
    [turbidity_compliant = (turbidity <= 1.0)], [overall_compliant] their
    conjunction, and [potability_status] is ['Potable'] when
    [overall_compliant] holds and ['Not Potable'] otherwise. *)
Theorem compliance_flags_and_verdict (tds turbidity : pynum) (t p : pyval) :
  exists r,
    get_potability_recommendation true (PyNum tds) (PyNum turbidity) t p
    = Success r
    /\ tds_compliant (who_compliance r) = le tds (PyInt 500)
    /\ turbidity_compliant (who_compliance r) = le turbidity (PyFloat f1_0)
    /\ overall_compliant (who_compliance r)
       = tds_compliant (who_compliance r)
         && turbidity_compliant (who_compliance r)
    /\ potability_status r
       = (if overall_compliant (who_compliance r) then "Potable"
          else "Not Potable")
    /\ (potability_status r = "Potable"
        <-> overall_compliant (who_compliance r) = true).
Proof.
  exists (evaluation_of tds turbidity t p).
  split; [apply get_numeric|].
  repeat split; try reflexivity; simpl;
    destruct (le tds (PyInt 500)), (le turbidity (PyFloat f1_0)); simpl;
    trivial; discriminate.
Qed.

(** C2. For every pair of numeric readings the score is
    [clamp(100 - tds_deduction - turbidity_deduction, 0, 100)], each
    deduction being the single value that the band table of the
    specification assigns to the reading; every reading except NaN lies in
    a band. *)
Theorem score_is_clamped_band_sum (tds turbidity : pynum) (t p : pyval) :
  exists r,
    get_potability_recommendation true (PyNum tds) (PyNum turbidity) t p
    = Success r
    /\ potability_score r = of_int (spec_score tds turbidity)
    /\ match spec_tds_deduction tds with Some _ => true | None => false end
       = negb (is_nan tds)
    /\ match spec_turbidity_deduction turbidity with
       | Some _ => true
       | None => false
       end = negb (is_nan turbidity).
Proof.
  exists (evaluation_of tds turbidity t p).
  split; [apply get_numeric|]. split; [|split].
  - simpl. unfold spec_score.
    rewrite spec_tds_points, spec_turbidity_points.
    apply score_of_points.
  - apply spec_tds_deduction_defined.
  - apply spec_turbidity_deduction_defined.
Qed.

(** C3. Whenever [tds > 500] or [turbidity > 1.0], whatever the other
    reading, the result is ['Not Potable'] with a score of at most 65,
    hence below 70 (and not below 0). *)
Theorem violation_not_potable_score_at_most_65
  (tds turbidity : pynum) (t p : pyval) :
  gt tds (PyInt 500) = true \/ gt turbidity (PyFloat f1_0) = true ->
  exists r,
    get_potability_recommendation true (PyNum tds) (PyNum turbidity) t p
    = Success r
    /\ potability_status r = "Not Potable"
    /\ le (PyFloat (potability_score r)) (PyInt 65) = true
    /\ lt (PyFloat (potability_score r)) (PyInt 70) = true
    /\ le (PyInt 0) (PyFloat (potability_score r)) = true.
Proof.
  intros H. exists (evaluation_of tds turbidity t p).
  split; [apply get_numeric|]. split.
  - simpl. destruct H as [H|H]; apply gt_true_le_false in H; rewrite H;
      [reflexivity | now rewrite andb_false_r].
  - simpl. unfold score_of.
    pose proof (tds_points_range tds) as R1.
    pose proof (turbidity_points_range turbidity) as R2.
    destruct H as [H|H].
    + clear R1. pose proof (tds_points_violation tds H) as R1.
      in_cases R1; in_cases R2; vm_compute; auto.
    + clear R2. pose proof (turbidity_points_violation turbidity H) as R2.
      in_cases R1; in_cases R2; vm_compute; auto.
Qed.

Lemma violation_not_potable_score_at_most_65_witness :
  (gt (PyFloat (of_int 501)) (PyInt 500) = true
   \/ gt (PyFloat f0_8) (PyFloat f1_0) = true)
  /\ exists r,
    get_potability_recommendation true
      (PyNum (PyFloat (of_int 501))) (PyNum (PyFloat f0_8))
      default_temperature default_ph_level = Success r
    /\ potability_status r = "Not Potable"
    /\ le (PyFloat (potability_score r)) (PyInt 65) = true
    /\ lt (PyFloat (potability_score r)) (PyInt 70) = true
    /\ le (PyInt 0) (PyFloat (potability_score r)) = true.
Proof.
  assert (H : gt (PyFloat (of_int 501)) (PyInt 500) = true
              \/ gt (PyFloat f0_8) (PyFloat f1_0) = true)
    by (left; vm_compute; reflexivity).
  split; [exact H|].
  exact (violation_not_potable_score_at_most_65
           (PyFloat (of_int 501)) (PyFloat f0_8)
           default_temperature default_ph_level H).
Defined.

(** C4. Whenever [tds <= 500] and [turbidity <= 1.0], both bounds
    included, the result is ['Potable'] with score 100, risk ['Low'],
    action ['None'] and the no-action recommendation. *)
Theorem within_limits_potable (tds turbidity : pynum) (t p : pyval) :
  le tds (PyInt 500) = true ->
  le turbidity (PyFloat f1_0) = true ->
  exists r,
    get_potability_recommendation true (PyNum tds) (PyNum turbidity) t p
    = Success r
    /\ potability_status r = "Potable"
    /\ potability_score r = of_int 100
    /\ risk_level r = "Low"
    /\ action_required r = "None"
    /\ recommendation r = "Water is POTABLE. No immediate action needed.".
Proof.
  intros H1 H2. exists (evaluation_of tds turbidity t p).
  split; [apply get_numeric|].
  assert (E : issues (checked tds turbidity) = []).
  { rewrite (proj1 (checked_flags tds turbidity)).
    apply spec_issues_empty. split; now apply le_true_gt_false. }
  unfold evaluation_of; simpl. rewrite E, H1, H2.
  unfold score_of.
  rewrite (tds_points_compliant tds H1),
    (turbidity_points_compliant turbidity H2).
  repeat split; reflexivity.
Qed.

Lemma within_limits_potable_witness :
  le (PyFloat (of_int 500)) (PyInt 500) = true
  /\ le (PyFloat f1_0) (PyFloat f1_0) = true
  /\ exists r,
    get_potability_recommendation true
      (PyNum (PyFloat (of_int 500))) (PyNum (PyFloat f1_0))
      default_temperature default_ph_level = Success r
    /\ potability_status r = "Potable"
    /\ potability_score r = of_int 100
    /\ risk_level r = "Low"
    /\ action_required r = "None"
    /\ recommendation r = "Water is POTABLE. No immediate action needed.".
Proof.
  assert (H1 : le (PyFloat (of_int 500)) (PyInt 500) = true)
    by (vm_compute; reflexivity).
  assert (H2 : le (PyFloat f1_0) (PyFloat f1_0) = true)
    by (vm_compute; reflexivity).
  split; [exact H1|]. split; [exact H2|].
  exact (within_limits_potable (PyFloat (of_int 500)) (PyFloat f1_0)
           default_temperature default_ph_level H1 H2).
Defined.

(** C5, as the code has it. At [tds = 600] (as a float or as an int) and
    [turbidity = 0.8] the result is ['Not Potable'] with score 65: the
    test [tds > 600] fails at 600, so the chain takes the [tds > 500]
    branch and subtracts 35. *)
Theorem tds_600_scores_65 :
  tds_points (PyFloat (of_int 600)) = Some 35
  /\ tds_points (PyInt 600) = Some 35
  /\ turbidity_points (PyFloat f0_8) = None
  /\ (exists r,
        get_potability_recommendation true
          (PyNum (PyFloat (of_int 600))) (PyNum (PyFloat f0_8))
          default_temperature default_ph_level = Success r
        /\ potability_status r = "Not Potable"
        /\ potability_score r = of_int 65)
  /\ (exists r,
        get_potability_recommendation true
          (PyNum (PyInt 600)) (PyNum (PyFloat f0_8))
          default_temperature default_ph_level = Success r
        /\ potability_status r = "Not Potable"
        /\ potability_score r = of_int 65).
Proof.
  repeat split; try (vm_compute; reflexivity);
    eexists; (split; [vm_compute; reflexivity|]);
    split; vm_compute; reflexivity.
Qed.

(** At [tds = 600], [turbidity = 0.8] the score is not 60. *)
Lemma tds_600_score_is_not_60 :
  ~ exists r,
      get_potability_recommendation true
        (PyNum (PyFloat (of_int 600))) (PyNum (PyFloat f0_8))
        default_temperature default_ph_level = Success r
      /\ potability_status r = "Not Potable"
      /\ potability_score r = of_int 60.
Proof.
  intros [r [H [_ K]]]. rewrite get_numeric in H.
  injection H as <-. vm_compute in K. discriminate.
Qed.

(** The other concrete cases of the specification: [(350, 0.8)] at the
    defaults of [/test], [(350, 6)], [(1300, 60)] and [(500, 1.0)]. *)
Example concrete_cases :
  (exists r, test true = Success r
     /\ potability_status r = "Potable" /\ potability_score r = of_int 100
     /\ risk_level r = "Low" /\ action_required r = "None")
  /\ (exists r,
        get_potability_recommendation true
          (PyNum (PyInt 350)) (PyNum (PyInt 6))
          default_temperature default_ph_level = Success r
        /\ potability_status r = "Not Potable"
        /\ potability_score r = of_int 60
        /\ recommendation r = turbidity_issue_above_5)
  /\ (exists r,
        get_potability_recommendation true
          (PyNum (PyInt 1300)) (PyNum (PyInt 60))
          default_temperature default_ph_level = Success r
        /\ potability_status r = "Not Potable"
        /\ potability_score r = of_int 0)
  /\ (exists r,
        get_potability_recommendation true
          (PyNum (PyInt 500)) (PyNum (PyFloat f1_0))
          default_temperature default_ph_level = Success r
        /\ potability_status r = "Potable"
        /\ potability_score r = of_int 100).
Proof.
  repeat split; eexists; (split; [vm_compute; reflexivity|]);
    repeat split; vm_compute; reflexivity.
Qed.

(** C6, as the code has it. There are two forms of error result, both
    with the keys [status] and [message] only. With [models_loaded] false
    the message is ['AI models not loaded. Please train models first.'].
    Otherwise an error is returned exactly when the evaluation raises, and
    its message is ['AI prediction failed: '] followed by the message of
    the exception; this happens only for a TDS or turbidity that is not a
    number. *)
Theorem error_results_have_two_forms
  (models_loaded : bool) (tds turbidity t p : pyval) :
  match get_potability_recommendation models_loaded tds turbidity t p with
  | Success r => models_loaded = true /\ evaluate tds turbidity t p = inr r
  | Error m =>
      status (Error m) = "error"
      /\ keys (Error m) = ["status"; "message"]
      /\ ((models_loaded = false
           /\ m = "AI models not loaded. Please train models first.")
          \/ (models_loaded = true
              /\ exists cause,
                   evaluate tds turbidity t p = inl cause
                   /\ m = "AI prediction failed: " ++ cause
                   /\ (cause = type_error "<=" tds (PyNum (PyInt 500))
                       \/ cause = type_error "<=" turbidity
                                    (PyNum (PyFloat f1_0)))))
  end.
Proof.
  unfold get_potability_recommendation.
  destruct models_loaded; simpl.
  - destruct (evaluate tds turbidity t p) as [cause|r] eqn:E.
    + repeat split. right. split; [reflexivity|].
      exists cause. repeat split.
      destruct (evaluate_raises _ _ _ _ _ E) as [[-> _]|[-> _]]; auto.
    + now split.
  - repeat split. now left.
Qed.

(** With [models_loaded] false the call made by [/test] returns an error
    whose message is not ['AI prediction failed: '] followed by a cause:
    the claimed single form of error result is not the only one. *)
Lemma models_not_loaded_is_a_second_error_form :
  exists m,
    test false = Error m
    /\ forall cause, m <> "AI prediction failed: " ++ cause.
Proof.
  eexists. split; [reflexivity|].
  intros cause H. discriminate H.
Qed.

(** C7. On a success result the issue messages are appended TDS first
    (when [tds > 500]), turbidity second (when [turbidity > 1.0]); when one
    was appended, [recommendation] is their join with a space and
    [action_required] the join of the action labels with a comma and a
    space; the two turbidity branches append the same two strings. *)
Theorem issues_joined_in_append_order (tds turbidity : pynum) (t p : pyval) :
  exists r,
    get_potability_recommendation true (PyNum tds) (PyNum turbidity) t p
    = Success r
    /\ issues (checked tds turbidity)
       = ((if gt tds (PyInt 500) then [tds_issue] else [])
          ++ (if gt turbidity (PyFloat f1_0)
              then [turbidity_issue_above_1] else []))%list
    /\ actions (checked tds turbidity)
       = ((if gt tds (PyInt 500) then [tds_action] else [])
          ++ (if gt turbidity (PyFloat f1_0)
              then [turbidity_action_above_1] else []))%list
    /\ recommendation r
       = match issues (checked tds turbidity) with
         | [] => potable_recommendation
         | _ :: _ => String.concat " " (issues (checked tds turbidity))
         end
    /\ action_required r
       = match issues (checked tds turbidity) with
         | [] => "None"
         | _ :: _ => String.concat ", " (actions (checked tds turbidity))
         end
    /\ turbidity_issue_above_5 = turbidity_issue_above_1
    /\ turbidity_action_above_5 = turbidity_action_above_1.
Proof.
  exists (evaluation_of tds turbidity t p).
  split; [apply get_numeric|].
  destruct (checked_flags tds turbidity) as [E1 E2].
  repeat split; assumption.
Qed.

(** C8. Two calls that differ only in temperature and pH return the same
    result up to the echoed [temperature] and [ph_level]: both fail with
    the same message, or both succeed with equal verdict, score,
    confidence, risk level, recommendation, action, compliance flags,
    guidelines, model information and echoed TDS and turbidity. *)
Theorem temperature_and_ph_only_echoed
  (models_loaded : bool) (tds turbidity t1 p1 t2 p2 : pyval) :
  get_potability_recommendation models_loaded tds turbidity t2 p2
  = with_temperature_ph t2 p2
      (get_potability_recommendation models_loaded tds turbidity t1 p1)
  /\ match get_potability_recommendation models_loaded tds turbidity t1 p1,
           get_potability_recommendation models_loaded tds turbidity t2 p2
     with
     | Success r1, Success r2 =>
         potability_status r1 = potability_status r2
         /\ potability_score r1 = potability_score r2
         /\ confidence r1 = confidence r2
         /\ risk_level r1 = risk_level r2
         /\ recommendation r1 = recommendation r2
         /\ action_required r1 = action_required r2
         /\ who_compliance r1 = who_compliance r2
         /\ who_guidelines r1 = who_guidelines r2
         /\ ai_info r1 = ai_info r2
         /\ tds_value (parameters r1) = tds_value (parameters r2)
         /\ turbidity_value (parameters r1) = turbidity_value (parameters r2)
         /\ temperature (parameters r1) = t1
         /\ ph_level (parameters r1) = p1
         /\ temperature (parameters r2) = t2
         /\ ph_level (parameters r2) = p2
     | Error m1, Error m2 => m1 = m2
     | _, _ => False
     end.
Proof.
  destruct models_loaded; [|split; reflexivity].
  split; [apply evaluate_temperature_ph|].
  destruct tds as [n1| |]; destruct turbidity as [n2| |];
    try reflexivity.
  rewrite !get_numeric. repeat split.
Qed.

(** C9. With [models_loaded] false every call, whatever its arguments
    (also those on which the evaluation would raise), returns the error
    ['AI models not loaded. Please train models first.'], and on every
    input this differs from what the call returns with the flag set. *)
Theorem models_not_loaded_error (tds turbidity t p : pyval) :
  get_potability_recommendation false tds turbidity t p
  = Error "AI models not loaded. Please train models first."
  /\ status (get_potability_recommendation false tds turbidity t p) = "error"
  /\ get_potability_recommendation true tds turbidity t p
     <> get_potability_recommendation false tds turbidity t p.
Proof.
  split; [reflexivity|]. split; [reflexivity|].
  unfold get_potability_recommendation. simpl.
  destruct (evaluate tds turbidity t p); discriminate.
Qed.

(** C10 at a NaN reading. With [tds = nan] and [turbidity = 0.8] the
    evaluator succeeds with ['Not Potable'] although the risk is ['Low'],
    the action ['None'], the score 100 and the recommendation the one for
    potable water: [nan <= 500] and [nan > 500] are both false. *)
Theorem nan_tds_not_potable_low_risk :
  exists r,
    get_potability_recommendation true
      (PyNum (PyFloat nan)) (PyNum (PyFloat f0_8))
      default_temperature default_ph_level = Success r
    /\ potability_status r = "Not Potable"
    /\ risk_level r = "Low"
    /\ action_required r = "None"
    /\ recommendation r = "Water is POTABLE. No immediate action needed."
    /\ potability_score r = of_int 100.
Proof.
  eexists. split; [vm_compute; reflexivity|].
  repeat split.
Qed.

(** Away from NaN the risk level, the verdict and the action agree. *)
Lemma risk_follows_verdict_when_ordered
  (tds turbidity : pynum) (t p : pyval) :
  is_nan tds = false -> is_nan turbidity = false ->
  exists r,
    get_potability_recommendation true (PyNum tds) (PyNum turbidity) t p
    = Success r
    /\ (risk_level r = "High" <-> potability_status r = "Not Potable")
    /\ (risk_level r = "Low" <-> potability_status r = "Potable")
    /\ (potability_status r = "Potable" <-> action_required r = "None").
Proof.
  intros N1 N2. exists (evaluation_of tds turbidity t p).
  split; [apply get_numeric|].
  unfold evaluation_of; simpl.
  destruct (checked_flags tds turbidity) as [-> ->].
  unfold spec_issues, spec_actions.
  rewrite (gt_negb_le tds (PyInt 500) N1 eq_refl).
  rewrite (gt_negb_le turbidity (PyFloat f1_0) N2 eq_refl).
  destruct (le tds (PyInt 500)), (le turbidity (PyFloat f1_0)); simpl;
    repeat split; intros; trivial; discriminate.
Qed.

End Properties.

(** ** Further order facts *)

Module OrderFacts.
Import Number NumberFacts.

Lemma xcompare_above (x y c : xreal) :
  xcompare x c = Some Gt ->
  (xcompare x y = Some Lt \/ xcompare x y = Some Eq) ->
  xcompare y c = Some Gt.
Proof.
  destruct x as [|[|]|p], y as [|[|]|q], c as [|[|]|r]; simpl;
    intros H [K|K]; try discriminate; try reflexivity.
  - injection H as H. injection K as K. f_equal.
    apply Qgt_alt. apply Qgt_alt in H. apply Qlt_alt in K.
    now apply Qlt_trans with p.
  - injection H as H. injection K as K. f_equal.
    apply Qgt_alt. apply Qgt_alt in H. apply Qeq_alt in K.
    now rewrite <- K.
Qed.

(** A reading at least as large as one above [c] is above [c]. *)
Lemma gt_upward (x y c : pynum) :
  le x y = true -> gt x c = true -> gt y c = true.
Proof.
  unfold gt, le, compare. intros K H.
  rewrite (xcompare_above (value x) (value y) (value c)); trivial.
  - now destruct (xcompare (value x) (value c)) as [[| |]|].
  - destruct (xcompare (value x) (value y)) as [[| |]|]; auto; discriminate.
Qed.

Lemma xcompare_equal (a b c : xreal) :
  xcompare a b = Some Eq -> xcompare a c = xcompare b c.
Proof.
  destruct a as [|[|]|p], b as [|[|]|q], c as [|[|]|r]; simpl;
    intros H; try discriminate; try reflexivity.
  injection H as H. apply Qeq_alt in H. now rewrite H.
Qed.

(** Numbers of equal value compare alike with every third number. *)
Lemma compare_equal (a b c : pynum) :
  compare a b = Some Eq -> compare a c = compare b c.
Proof. apply xcompare_equal. Qed.

Lemma gt_equal (a b c : pynum) :
  compare a b = Some Eq -> gt a c = gt b c.
Proof. intros H. unfold gt. now rewrite (compare_equal a b c H). Qed.

Lemma le_equal (a b c : pynum) :
  compare a b = Some Eq -> le a c = le b c.
Proof. intros H. unfold le. now rewrite (compare_equal a b c H). Qed.

End OrderFacts.

(** ** Further properties of the evaluator *)

Module EvaluatorFacts.
Import Number Py Server Numeric Spec NumberFacts ServerFacts OrderFacts.

Ltac in_cases_var H :=
  simpl in H; repeat (destruct H as [H|H]; [subst|]); try contradiction.

Lemma le_true_not_nan (a b : pynum) : le a b = true -> is_nan a = false.
Proof.
  intros H. destruct (is_nan a) eqn:E; trivial.
  now rewrite (nan_le a b E) in H.
Qed.

Lemma tds_points_none (tds : pynum) :
  gt tds (PyInt 500) = false -> tds_points tds = None.
Proof.
  intros H. unfold tds_points.
  rewrite (not_gt_strengthen tds (PyInt 500) (PyInt 1200) H) by const_le.
  rewrite (not_gt_strengthen tds (PyInt 500) (PyInt 900) H) by const_le.
  rewrite (not_gt_strengthen tds (PyInt 500) (PyInt 600) H) by const_le.
  now rewrite H.
Qed.

Lemma turbidity_points_none (turbidity : pynum) :
  gt turbidity (PyFloat f1_0) = false -> turbidity_points turbidity = None.
Proof.
  intros H. unfold turbidity_points.
  rewrite (not_gt_strengthen turbidity (PyFloat f1_0) (PyInt 50) H)
    by const_le.
  rewrite (not_gt_strengthen turbidity (PyFloat f1_0) (PyInt 10) H)
    by const_le.
  rewrite (not_gt_strengthen turbidity (PyFloat f1_0) (PyInt 5) H)
    by const_le.
  now rewrite H.
Qed.

(** The scores the two chains can leave, and the clamp on them. *)
Lemma unclamped_scores (d1 d2 : option Z) :
  In d1 [Some 50; Some 45; Some 40; Some 35; None] ->
  In d2 [Some 50; Some 45; Some 40; Some 35; None] ->
  py_max f0_0 (py_min f100_0 (deduct (deduct f100_0 d1) d2))
  = deduct (deduct f100_0 d1) d2
  /\ In (deduct (deduct f100_0 d1) d2)
       (map of_int [100; 65; 60; 55; 50; 30; 25; 20; 15; 10; 5; 0]).
Proof.
  intros R1 R2. in_cases_var R1; in_cases_var R2;
    (split; [vm_compute; reflexivity|]); vm_compute;
    repeat (first [left; reflexivity | right]).
Qed.

(** X1. The clamp to [0, 100] never changes the score: what the two chains
    leave is already one of twelve values between 0 and 100. *)
Theorem clamp_never_alters_score (tds turbidity : pynum) (t p : pyval) :
  exists r s1 s2,
    get_potability_recommendation true (PyNum tds) (PyNum turbidity) t p
    = Success r
    /\ tds_scoring (PyNum tds) f100_0 = inr s1
    /\ turbidity_scoring (PyNum turbidity) s1 = inr s2
    /\ potability_score r = s2
    /\ In s2 (map of_int [100; 65; 60; 55; 50; 30; 25; 20; 15; 10; 5; 0]).
Proof.
  exists (evaluation_of tds turbidity t p),
    (deduct f100_0 (tds_points tds)),
    (deduct (deduct f100_0 (tds_points tds)) (turbidity_points turbidity)).
  destruct (unclamped_scores _ _ (tds_points_range tds)
              (turbidity_points_range turbidity)) as [E I].
  split; [apply get_numeric|].
  split; [apply tds_scoring_numeric|].
  split; [apply turbidity_scoring_numeric|].
  split; [exact E | exact I].
Qed.

(** Larger readings subtract at least as many points. *)
Lemma tds_points_monotone (tds1 tds2 : pynum) :
  le tds1 tds2 = true ->
  (points (tds_points tds1) <= points (tds_points tds2))%Z.
Proof.
  intros H. unfold tds_points.
  destruct (gt tds1 (PyInt 1200)) eqn:A1;
    [rewrite (gt_upward tds1 tds2 _ H A1)|].
  all: destruct (gt tds1 (PyInt 900)) eqn:A2;
    [try rewrite (gt_upward tds1 tds2 _ H A2)|].
  all: destruct (gt tds1 (PyInt 600)) eqn:A3;
    [try rewrite (gt_upward tds1 tds2 _ H A3)|].
  all: destruct (gt tds1 (PyInt 500)) eqn:A4;
    [try rewrite (gt_upward tds1 tds2 _ H A4)|].
  all: repeat match goal with
         | |- context [gt ?x ?c] => destruct (gt x c)
         end; simpl; lia.
Qed.

Lemma turbidity_points_monotone (turbidity1 turbidity2 : pynum) :
  le turbidity1 turbidity2 = true ->
  (points (turbidity_points turbidity1)
   <= points (turbidity_points turbidity2))%Z.
Proof.
  intros H. unfold turbidity_points.
  destruct (gt turbidity1 (PyInt 50)) eqn:A1;
    [rewrite (gt_upward turbidity1 turbidity2 _ H A1)|].
  all: destruct (gt turbidity1 (PyInt 10)) eqn:A2;
    [try rewrite (gt_upward turbidity1 turbidity2 _ H A2)|].
  all: destruct (gt turbidity1 (PyInt 5)) eqn:A3;
    [try rewrite (gt_upward turbidity1 turbidity2 _ H A3)|].
  all: destruct (gt turbidity1 (PyFloat f1_0)) eqn:A4;
    [try rewrite (gt_upward turbidity1 turbidity2 _ H A4)|].
  all: repeat match goal with
         | |- context [gt ?x ?c] => destruct (gt x c)
         end; simpl; lia.
Qed.

(** X2. The score never rises when a reading rises: if [tds1 <= tds2] and
    [turbidity1 <= turbidity2] then the score at [(tds2, turbidity2)] is at
    most the score at [(tds1, turbidity1)]. *)
Theorem score_antitone (tds1 tds2 turbidity1 turbidity2 : pynum)
  (t1 p1 t2 p2 : pyval) :
  le tds1 tds2 = true ->
  le turbidity1 turbidity2 = true ->
  exists r1 r2,
    get_potability_recommendation true (PyNum tds1) (PyNum turbidity1) t1 p1
    = Success r1
    /\ get_potability_recommendation true
         (PyNum tds2) (PyNum turbidity2) t2 p2 = Success r2
    /\ le (PyFloat (potability_score r2)) (PyFloat (potability_score r1))
       = true.
Proof.
  intros H1 H2.
  exists (evaluation_of tds1 turbidity1 t1 p1),
    (evaluation_of tds2 turbidity2 t2 p2).
  split; [apply get_numeric|]. split; [apply get_numeric|].
  simpl. unfold score_of.
  pose proof (tds_points_monotone tds1 tds2 H1) as M1.
  pose proof (turbidity_points_monotone turbidity1 turbidity2 H2) as M2.
  pose proof (tds_points_range tds1) as R1.
  pose proof (tds_points_range tds2) as R2.
  pose proof (turbidity_points_range turbidity1) as R3.
  pose proof (turbidity_points_range turbidity2) as R4.
  remember (tds_points tds1) as a1.
  remember (tds_points tds2) as a2.
  remember (turbidity_points turbidity1) as b1.
  remember (turbidity_points turbidity2) as b2.
  clear - M1 M2 R1 R2 R3 R4.
  in_cases_var R1; in_cases_var R2; simpl in M1; try lia;
    in_cases_var R3; in_cases_var R4; simpl in M2; try lia;
    vm_compute; reflexivity.
Qed.

Lemma score_antitone_witness :
  le (PyInt 350) (PyFloat (of_int 650)) = true
  /\ le (PyFloat f0_8) (PyInt 6) = true
  /\ exists r1 r2,
       get_potability_recommendation true
         (PyNum (PyInt 350)) (PyNum (PyFloat f0_8))
         default_temperature default_ph_level = Success r1
       /\ get_potability_recommendation true
            (PyNum (PyFloat (of_int 650))) (PyNum (PyInt 6))
            default_temperature default_ph_level = Success r2
       /\ le (PyFloat (potability_score r2)) (PyFloat (potability_score r1))
          = true.
Proof.
  assert (H1 : le (PyInt 350) (PyFloat (of_int 650)) = true)
    by (vm_compute; reflexivity).
  assert (H2 : le (PyFloat f0_8) (PyInt 6) = true)
    by (vm_compute; reflexivity).
  split; [exact H1|]. split; [exact H2|].
  exact (score_antitone (PyInt 350) (PyFloat (of_int 650))
           (PyFloat f0_8) (PyInt 6)
           default_temperature default_ph_level
           default_temperature default_ph_level H1 H2).
Defined.

(** X3. Score, risk level, action and recommendation always agree with one
    another, for a NaN reading too: either no test [tds > 500],
    [turbidity > 1.0] holds and the result has score 100, risk ['Low'],
    action ['None'] and the no-action recommendation, or one holds and the
    result has a score of at most 65, risk ['High'] and another action and
    recommendation. *)
Theorem tally_agrees (tds turbidity : pynum) (t p : pyval) :
  exists r,
    get_potability_recommendation true (PyNum tds) (PyNum turbidity) t p
    = Success r
    /\ ((gt tds (PyInt 500) = false
         /\ gt turbidity (PyFloat f1_0) = false
         /\ potability_score r = of_int 100
         /\ risk_level r = "Low"
         /\ action_required r = "None"
         /\ recommendation r = potable_recommendation)
        \/ ((gt tds (PyInt 500) = true
             \/ gt turbidity (PyFloat f1_0) = true)
            /\ le (PyFloat (potability_score r)) (PyInt 65) = true
            /\ risk_level r = "High"
            /\ action_required r <> "None"
            /\ recommendation r <> potable_recommendation)).
Proof.
  exists (evaluation_of tds turbidity t p).
  split; [apply get_numeric|].
  unfold evaluation_of; simpl.
  destruct (checked_flags tds turbidity) as [-> ->].
  unfold spec_issues, spec_actions, score_of.
  pose proof (tds_points_range tds) as R1.
  pose proof (turbidity_points_range turbidity) as R2.
  destruct (gt tds (PyInt 500)) eqn:E1;
    destruct (gt turbidity (PyFloat f1_0)) eqn:E2.
  - right. clear R1 R2.
    pose proof (tds_points_violation tds E1) as R1.
    pose proof (turbidity_points_violation turbidity E2) as R2.
    split; [now left|]. split; [|repeat split; discriminate].
    in_cases R1; in_cases R2; vm_compute; reflexivity.
  - right. clear R1.
    pose proof (tds_points_violation tds E1) as R1.
    split; [now left|]. split; [|repeat split; discriminate].
    in_cases R1; in_cases R2; vm_compute; reflexivity.
  - right. clear R2.
    pose proof (turbidity_points_violation turbidity E2) as R2.
    split; [now right|]. split; [|repeat split; discriminate].
    in_cases R1; in_cases R2; vm_compute; reflexivity.
  - left. rewrite (tds_points_none tds E1),
      (turbidity_points_none turbidity E2).
    repeat split.
Qed.

(** X4. The verdict and the risk level disagree exactly on NaN: the result
    is ['Not Potable'] with risk ['Low'] if and only if a reading is NaN
    and neither [tds > 500] nor [turbidity > 1.0] holds; ['Potable'] with
    risk ['High'] never occurs. *)
Theorem verdict_and_risk_disagree_iff_nan
  (tds turbidity : pynum) (t p : pyval) :
  exists r,
    get_potability_recommendation true (PyNum tds) (PyNum turbidity) t p
    = Success r
    /\ ((potability_status r = "Not Potable" /\ risk_level r = "Low")
        <-> (is_nan tds || is_nan turbidity = true
             /\ gt tds (PyInt 500) = false
             /\ gt turbidity (PyFloat f1_0) = false))
    /\ ~ (potability_status r = "Potable" /\ risk_level r = "High").
Proof.
  exists (evaluation_of tds turbidity t p).
  split; [apply get_numeric|].
  unfold evaluation_of; simpl.
  destruct (checked_flags tds turbidity) as [-> _].
  unfold spec_issues.
  destruct (le tds (PyInt 500)) eqn:L1;
    destruct (gt tds (PyInt 500)) eqn:G1;
    try (rewrite (le_true_gt_false _ _ L1) in G1; discriminate G1);
    destruct (le turbidity (PyFloat f1_0)) eqn:L2;
    destruct (gt turbidity (PyFloat f1_0)) eqn:G2;
    try (rewrite (le_true_gt_false _ _ L2) in G2; discriminate G2);
    simpl.
  all: try (pose proof (unordered_nan _ _ L1 G1) as N1; simpl in N1;
            rewrite orb_false_r in N1; rewrite N1).
  all: try (pose proof (unordered_nan _ _ L2 G2) as N2; simpl in N2;
            rewrite orb_false_r in N2; rewrite N2).
  all: try (pose proof (le_true_not_nan _ _ L1) as M1; rewrite M1).
  all: try (pose proof (le_true_not_nan _ _ L2) as M2; rewrite M2).
  all: simpl; split;
    [split; [intros [A B] | intros [A [B C]]];
     try discriminate; repeat split; auto using orb_true_r
    | intros [A B]; discriminate].
Qed.




(** X7. Readings of equal value, such as the int [350] and the float [350.0],
    get the same verdict, score, risk level, recommendation, action and
    compliance flags. *)
Theorem equal_values_same_verdict (tds tds' turbidity turbidity' : pynum)
  (t p t' p' : pyval) :
  compare tds tds' = Some Eq ->
  compare turbidity turbidity' = Some Eq ->
  exists r r',
    get_potability_recommendation true (PyNum tds) (PyNum turbidity) t p
    = Success r
    /\ get_potability_recommendation true
         (PyNum tds') (PyNum turbidity') t' p' = Success r'
    /\ potability_status r = potability_status r'
    /\ potability_score r = potability_score r'
    /\ risk_level r = risk_level r'
    /\ recommendation r = recommendation r'
    /\ action_required r = action_required r'
    /\ who_compliance r = who_compliance r'.
Proof.
  intros H1 H2.
  exists (evaluation_of tds turbidity t p),
    (evaluation_of tds' turbidity' t' p').
  split; [apply get_numeric|]. split; [apply get_numeric|].
  unfold evaluation_of, score_of, checked, tds_points, turbidity_points.
  simpl.
  rewrite !(gt_equal tds tds' _ H1), !(le_equal tds tds' _ H1),
    !(gt_equal turbidity turbidity' _ H2),
    !(le_equal turbidity turbidity' _ H2).
  repeat split.
Qed.

Lemma equal_values_same_verdict_witness :
  compare (PyInt 350) (PyFloat (of_int 350)) = Some Eq
  /\ compare (PyFloat f0_0) (PyFloat (S754_zero true)) = Some Eq
  /\ exists r r',
       get_potability_recommendation true
         (PyNum (PyInt 350)) (PyNum (PyFloat f0_0))
         default_temperature default_ph_level = Success r
       /\ get_potability_recommendation true
            (PyNum (PyFloat (of_int 350))) (PyNum (PyFloat (S754_zero true)))
            default_temperature default_ph_level = Success r'
       /\ potability_status r = potability_status r'
       /\ potability_score r = potability_score r'
       /\ risk_level r = risk_level r'
       /\ recommendation r = recommendation r'
       /\ action_required r = action_required r'
       /\ who_compliance r = who_compliance r'.
Proof.
  assert (H1 : compare (PyInt 350) (PyFloat (of_int 350)) = Some Eq)
    by (vm_compute; reflexivity).
  assert (H2 : compare (PyFloat f0_0) (PyFloat (S754_zero true)) = Some Eq)
    by (vm_compute; reflexivity).
  split; [exact H1|]. split; [exact H2|].
  exact (equal_values_same_verdict
           (PyInt 350) (PyFloat (of_int 350))
           (PyFloat f0_0) (PyFloat (S754_zero true))
           default_temperature default_ph_level
           default_temperature default_ph_level H1 H2).
Defined.

End EvaluatorFacts.

(** ** Properties of the model loader *)

Module StartupFacts.
Import Startup.

Section Loader.

Variable model : Type.

Lemma load_models_true_flag (fs : files model) (g g' : globals model) :
  load_models fs g = (true, g') -> models_loaded g' = true.
Proof.
  unfold load_models.
  destruct (potability_classifier_pkl fs) as [|c|m]; try discriminate.
  destruct (potability_score_regressor_pkl fs) as [|r|m]; try discriminate.
  intros H. now injection H as <-.
Qed.

(** X8. When [load_models] returns [True], [models_loaded] is set and both
    globals hold what the two files load to. *)
Theorem load_models_true_sets_everything
  (fs : files model) (g g' : globals model) :
  load_models fs g = (true, g') ->
  models_loaded g' = true
  /\ exists c r,
       potability_classifier_pkl fs = Pickle c
       /\ potability_score_regressor_pkl fs = Pickle r
       /\ classifier_model g' = Some c
       /\ score_regressor g' = Some r.
Proof.
  unfold load_models.
  destruct (potability_classifier_pkl fs) as [|c|m]; try discriminate.
  destruct (potability_score_regressor_pkl fs) as [|r|m]; try discriminate.
  intros H. injection H as <-. split; [reflexivity|].
  exists c, r. repeat split.
Qed.

(** X9. A load that returns [False] leaves [score_regressor] and
    [models_loaded] as they were, so a flag set by an earlier load stays
    set; [classifier_model] is kept too, or replaced when its file
    loaded. *)
Theorem failed_load_keeps_flag (fs : files model) (g g' : globals model) :
  load_models fs g = (false, g') ->
  score_regressor g' = score_regressor g
  /\ models_loaded g' = models_loaded g
  /\ (classifier_model g' = classifier_model g
      \/ exists c,
           potability_classifier_pkl fs = Pickle c
           /\ classifier_model g' = Some c).
Proof.
  unfold load_models.
  destruct (potability_classifier_pkl fs) as [|c|m].
  - intros H. injection H as <-. repeat split. now left.
  - destruct (potability_score_regressor_pkl fs) as [|r|m];
      try discriminate; intros H; injection H as <-;
      repeat split; right; now exists c.
  - intros H. injection H as <-. repeat split. now left.
Qed.

(** X10. Loading twice from the same files is loading once. *)
Theorem load_models_idempotent (fs : files model) (g : globals model) :
  load_models fs (snd (load_models fs g)) = load_models fs g.
Proof.
  unfold load_models.
  destruct (potability_classifier_pkl fs) as [|c|m]; try reflexivity.
  destruct (potability_score_regressor_pkl fs) as [|r|m]; reflexivity.
Qed.

End Loader.

Lemma load_models_true_sets_everything_witness :
  load_models
    {| potability_classifier_pkl := Pickle 1%nat;
       potability_score_regressor_pkl := Pickle 2%nat |}
    initial_globals
  = (true,
     {| classifier_model := Some 1%nat;
        score_regressor := Some 2%nat;
        models_loaded := true |})
  /\ models_loaded
       {| classifier_model := Some 1%nat;
          score_regressor := Some 2%nat;
          models_loaded := true |} = true
  /\ exists c r,
       potability_classifier_pkl
         {| potability_classifier_pkl := Pickle 1%nat;
            potability_score_regressor_pkl := Pickle 2%nat |} = Pickle c
       /\ potability_score_regressor_pkl
            {| potability_classifier_pkl := Pickle 1%nat;
               potability_score_regressor_pkl := Pickle 2%nat |} = Pickle r
       /\ classifier_model
            {| classifier_model := Some 1%nat;
               score_regressor := Some 2%nat;
               models_loaded := true |} = Some c
       /\ score_regressor
            {| classifier_model := Some 1%nat;
               score_regressor := Some 2%nat;
               models_loaded := true |} = Some r.
Proof.
  split; [reflexivity|].
  exact (load_models_true_sets_everything nat
           {| potability_classifier_pkl := Pickle 1%nat;
              potability_score_regressor_pkl := Pickle 2%nat |}
           initial_globals
           {| classifier_model := Some 1%nat;
              score_regressor := Some 2%nat;
              models_loaded := true |}
           eq_refl).
Defined.

(** A reload that fails on a missing regressor, after a load that set the
    flag. *)
Lemma failed_load_keeps_flag_witness :
  load_models
    {| potability_classifier_pkl := Pickle 3%nat;
       potability_score_regressor_pkl := Missing |}
    {| classifier_model := Some 1%nat;
       score_regressor := Some 2%nat;
       models_loaded := true |}
  = (false,
     {| classifier_model := Some 3%nat;
        score_regressor := Some 2%nat;
        models_loaded := true |})
  /\ score_regressor
       {| classifier_model := Some 3%nat;
          score_regressor := Some 2%nat;
          models_loaded := true |} = Some 2%nat
  /\ models_loaded
       {| classifier_model := Some 3%nat;
          score_regressor := Some 2%nat;
          models_loaded := true |} = true
  /\ (Some 3%nat = Some 1%nat
      \/ exists c,
           @Pickle nat 3%nat = Pickle c /\ Some 3%nat = Some c).
Proof.
  split; [reflexivity|].
  exact (failed_load_keeps_flag nat
           {| potability_classifier_pkl := Pickle 3%nat;
              potability_score_regressor_pkl := Missing |}
           {| classifier_model := Some 1%nat;
              score_regressor := Some 2%nat;
              models_loaded := true |}
           {| classifier_model := Some 3%nat;
              score_regressor := Some 2%nat;
              models_loaded := true |}
           eq_refl).
Defined.

End StartupFacts.

(** ** Properties of the endpoints *)

Module HttpFacts.
Import Number Py Server Numeric NumberFacts ServerFacts.
Import Startup StartupFacts Http.

Section Endpoints.

Variable parse_float : string -> option spec_float.
Variable model : Type.

(** A response of [predict] is the evaluation of four floats. *)
Lemma predict_evaluates_floats
  (g : globals model) (p : payload) (resp : response) :
  predict parse_float model g p = inr resp ->
  exists a b c d,
    resp = ResultBody
             (get_potability_recommendation (models_loaded g)
                (PyNum (PyFloat a)) (PyNum (PyFloat b))
                (PyNum (PyFloat c)) (PyNum (PyFloat d))).
Proof.
  unfold predict, and_then.
  match goal with
  | |- match ?m with _ => _ end = _ -> _ =>
      destruct m as [e|[[[a b] c] d]]
  end; [discriminate|].
  intros H. injection H as <-. now exists a, b, c, d.
Qed.

(** X11. Whatever the request, [predict] never answers with the evaluator's
    ['AI prediction failed'] error: when it answers, the body is a success
    result if the models are loaded and the models-not-loaded error if
    not, because the evaluator only ever gets floats. *)
Theorem predict_answers (g : globals model) (p : payload) (resp : response) :
  predict parse_float model g p = inr resp ->
  if models_loaded g
  then exists r, resp = ResultBody (Success r)
  else resp = ResultBody
                (Error "AI models not loaded. Please train models first.").
Proof.
  intros H. destruct (predict_evaluates_floats g p resp H)
    as [a [b [c [d ->]]]].
  destruct (models_loaded g).
  - rewrite get_numeric. now eexists.
  - reflexivity.
Qed.

(** X12. A server started by [main] answers every [/predict] and [/test]
    request it answers at all with a success result, and reports
    [models_loaded] as true on [/], [/status] and [/health]: no handler
    changes the globals after the load. *)
Theorem served_after_main (fs : files model)
  (requests : list (environment * request))
  (answers : list (raising response)) :
  run parse_float model fs requests = Some answers ->
  length answers = length requests
  /\ Forall (fun a =>
               match a with
               | inr (ResultBody res) => exists r, res = Success r
               | inr other => reported_models_loaded other = Some true
               | inl _ => True
               end) answers.
Proof.
  unfold run, main.
  destruct (load_models fs initial_globals) as [ok g] eqn:L.
  destruct ok; [|discriminate].
  pose proof (load_models_true_flag model fs _ _ L) as F.
  intros H. injection H as <-. split; [apply length_map|].
  apply Forall_map, Forall_forall. intros [env req] _.
  destruct req as [|p| | |]; simpl.
  - exact (f_equal Some F).
  - destruct (predict parse_float model g p) as [e|resp] eqn:P; trivial.
    destruct (predict_evaluates_floats g p resp P) as [a [b [c [d ->]]]].
    rewrite F, get_numeric. now eexists.
  - exact (f_equal Some F).
  - exact (f_equal Some F).
  - rewrite F, get_numeric. now eexists.
Qed.

(** X13. While [models_loaded] is false, [/health] still answers with status
    ['healthy'], and every [/predict] or [/test] request that is answered
    gets the models-not-loaded error. *)
Theorem healthy_while_not_loaded (g : globals model) (env : environment) :
  models_loaded g = false ->
  health model g env = HealthBody "healthy" false (now_isoformat env)
  /\ forall req res,
       handle parse_float model g env req = inr (ResultBody res) ->
       res = Error "AI models not loaded. Please train models first.".
Proof.
  intros F. split; [unfold health; now rewrite F|].
  intros req res H. destruct req as [|p| | |]; simpl in H;
    try discriminate H.
  - destruct (predict_evaluates_floats g p _ H) as [a [b [c [d E]]]].
    injection E as ->. now rewrite F.
  - unfold test in H. injection H as <-. now rewrite F.
Qed.

(** X14. A POST body that has none of the keys [tds_value], [turbidity_value],
    [temperature], [ph_level] (one that uses the names of the query
    string, say) is answered like a GET without arguments: by the
    evaluation of the defaults 350.0, 0.8, 25.0 and 7.0. *)
Theorem post_without_its_keys_uses_defaults
  (g : globals model) (items : list (string * pyobj)) :
  lookup items "tds_value" = None ->
  lookup items "turbidity_value" = None ->
  lookup items "temperature" = None ->
  lookup items "ph_level" = None ->
  predict parse_float model g (Post (ODict items))
  = predict parse_float model g (Get [])
  /\ predict parse_float model g (Post (ODict items))
     = inr (ResultBody
              (get_potability_recommendation (models_loaded g)
                 (PyNum (PyFloat (of_int 350))) (PyNum (PyFloat f0_8))
                 (PyNum (PyFloat (of_int 25))) (PyNum (PyFloat f7_0)))).
Proof.
  intros H1 H2 H3 H4. unfold predict, data_get.
  rewrite H1, H2, H3, H4. split; reflexivity.
Qed.

(** X15. A temperature that [float] cannot convert fails the whole request with
    the exception of the conversion, although the evaluator would succeed
    on the TDS and turbidity of the request with any temperature. *)
Theorem unconvertible_temperature_fails_request
  (g : globals model) (args : list (string * string))
  (a b : spec_float) (e : pyexn) :
  py_float parse_float (args_get args "tds" (OInt 350)) = inr a ->
  py_float parse_float (args_get args "turbidity" (OFloat f0_8)) = inr b ->
  py_float parse_float (args_get args "temperature" (OInt 25)) = inl e ->
  predict parse_float model g (Get args) = inl e
  /\ forall t p,
       exists r,
         get_potability_recommendation true
           (PyNum (PyFloat a)) (PyNum (PyFloat b)) t p = Success r.
Proof.
  intros H1 H2 H3. split.
  - unfold predict. now rewrite H1, H2, H3.
  - intros t p. eexists. apply get_numeric.
Qed.

(** X16. A query value for [tds] that [float] reads as NaN is answered, once the
    models are loaded, with ['Not Potable'] together with risk ['Low'],
    action ['None'] and the recommendation for potable water. *)
Theorem nan_query_answer (g : globals model) (s : string) :
  models_loaded g = true ->
  parse_float s = Some nan ->
  exists r,
    predict parse_float model g (Get [("tds", s)])
    = inr (ResultBody (Success r))
    /\ potability_status r = "Not Potable"
    /\ risk_level r = "Low"
    /\ action_required r = "None"
    /\ recommendation r = "Water is POTABLE. No immediate action needed.".
Proof.
  intros F H. unfold predict, args_get. simpl lookup.
  unfold py_float at 1. rewrite H, F.
  eexists. split; [vm_compute; reflexivity|]. repeat split.
Qed.

(** X17. A POST whose JSON body is not an object (null, a number, a string, a
    list) fails with [AttributeError] on the first [data.get], whatever the
    state of the models. *)
Theorem post_body_must_be_an_object (g : globals model) (data : pyobj) :
  (forall items, data <> ODict items) ->
  predict parse_float model g (Post data) = inl AttributeError.
Proof.
  intros H. destruct data as [|b|z|f|s|l|items]; try reflexivity.
  now elim (H items).
Qed.

End Endpoints.

Lemma post_body_must_be_an_object_witness :
  (forall items, OList [OInt 600; OFloat f0_8] <> ODict items)
  /\ predict (fun _ => None) nat initial_globals
       (Post (OList [OInt 600; OFloat f0_8])) = inl AttributeError.
Proof.
  assert (H : forall items, OList [OInt 600; OFloat f0_8] <> ODict items)
    by discriminate.
  split; [exact H|].
  exact (post_body_must_be_an_object (fun _ => None) nat initial_globals
           (OList [OInt 600; OFloat f0_8]) H).
Defined.

Lemma predict_answers_witness :
  predict (fun _ => None) nat initial_globals (Get [])
  = inr (ResultBody
           (Error "AI models not loaded. Please train models first."))
  /\ (if models_loaded (@initial_globals nat)
      then exists r,
             ResultBody
               (Error "AI models not loaded. Please train models first.")
             = ResultBody (Success r)
      else ResultBody
             (Error "AI models not loaded. Please train models first.")
           = ResultBody
               (Error "AI models not loaded. Please train models first.")).
Proof.
  split; [reflexivity|].
  exact (predict_answers (fun _ => None) nat initial_globals (Get []) _
           eq_refl).
Defined.

Lemma served_after_main_witness :
  exists answers,
    run (fun _ => None) nat
      {| potability_classifier_pkl := Pickle 1%nat;
         potability_score_regressor_pkl := Pickle 2%nat |}
      [({| now_isoformat := "2024-10-21T08:00:00";
           sys_version := "3.11"; getcwd := "/srv" |}, Test);
       ({| now_isoformat := "2024-10-21T08:00:01";
           sys_version := "3.11"; getcwd := "/srv" |}, Health)]
    = Some answers
    /\ length answers = 2%nat
    /\ Forall (fun a =>
                 match a with
                 | inr (ResultBody res) => exists r, res = Success r
                 | inr other => reported_models_loaded other = Some true
                 | inl _ => True
                 end) answers.
Proof.
  destruct (run (fun _ => None) nat
              {| potability_classifier_pkl := Pickle 1%nat;
                 potability_score_regressor_pkl := Pickle 2%nat |}
              [({| now_isoformat := "2024-10-21T08:00:00";
                   sys_version := "3.11"; getcwd := "/srv" |}, Test);
               ({| now_isoformat := "2024-10-21T08:00:01";
                   sys_version := "3.11"; getcwd := "/srv" |}, Health)])
    as [answers|] eqn:H; [|vm_compute in H; discriminate H].
  exists answers. split; [reflexivity|].
  exact (served_after_main (fun _ => None) nat _ _ answers H).
Defined.

Lemma healthy_while_not_loaded_witness :
  models_loaded (@initial_globals nat) = false
  /\ health nat initial_globals
       {| now_isoformat := "2024-10-21T08:00:00";
          sys_version := "3.11"; getcwd := "/srv" |}
     = HealthBody "healthy" false "2024-10-21T08:00:00"
  /\ forall req res,
       handle (fun _ => None) nat initial_globals
         {| now_isoformat := "2024-10-21T08:00:00";
            sys_version := "3.11"; getcwd := "/srv" |} req
       = inr (ResultBody res) ->
       res = Error "AI models not loaded. Please train models first.".
Proof.
  split; [reflexivity|].
  exact (healthy_while_not_loaded (fun _ => None) nat initial_globals
           {| now_isoformat := "2024-10-21T08:00:00";
              sys_version := "3.11"; getcwd := "/srv" |} eq_refl).
Defined.

Lemma post_without_its_keys_uses_defaults_witness :
  lookup [("tds", OInt 9999); ("turbidity", OInt 80)] "tds_value" = None
  /\ lookup [("tds", OInt 9999); ("turbidity", OInt 80)] "turbidity_value"
     = None
  /\ lookup [("tds", OInt 9999); ("turbidity", OInt 80)] "temperature"
     = None
  /\ lookup [("tds", OInt 9999); ("turbidity", OInt 80)] "ph_level" = None
  /\ predict (fun _ => None) nat initial_globals
       (Post (ODict [("tds", OInt 9999); ("turbidity", OInt 80)]))
     = predict (fun _ => None) nat initial_globals (Get [])
  /\ predict (fun _ => None) nat initial_globals
       (Post (ODict [("tds", OInt 9999); ("turbidity", OInt 80)]))
     = inr (ResultBody
              (get_potability_recommendation
                 (models_loaded (@initial_globals nat))
                 (PyNum (PyFloat (of_int 350))) (PyNum (PyFloat f0_8))
                 (PyNum (PyFloat (of_int 25))) (PyNum (PyFloat f7_0)))).
Proof.
  do 4 (split; [reflexivity|]).
  exact (post_without_its_keys_uses_defaults (fun _ => None) nat
           initial_globals [("tds", OInt 9999); ("turbidity", OInt 80)]
           eq_refl eq_refl eq_refl eq_refl).
Defined.

Lemma unconvertible_temperature_fails_request_witness :
  py_float (fun _ => None)
    (args_get [("temperature", "warm")] "tds" (OInt 350))
  = inr (of_int 350)
  /\ py_float (fun _ => None)
       (args_get [("temperature", "warm")] "turbidity" (OFloat f0_8))
     = inr f0_8
  /\ py_float (fun _ => None)
       (args_get [("temperature", "warm")] "temperature" (OInt 25))
     = inl ValueError
  /\ predict (fun _ => None) nat initial_globals
       (Get [("temperature", "warm")]) = inl ValueError
  /\ forall t p,
       exists r,
         get_potability_recommendation true
           (PyNum (PyFloat (of_int 350))) (PyNum (PyFloat f0_8)) t p
         = Success r.
Proof.
  assert (H1 : py_float (fun _ => None)
                 (args_get [("temperature", "warm")] "tds" (OInt 350))
               = inr (of_int 350)) by (vm_compute; reflexivity).
  split; [exact H1|]. split; [reflexivity|]. split; [reflexivity|].
  exact (unconvertible_temperature_fails_request (fun _ => None) nat
           initial_globals [("temperature", "warm")]
           (of_int 350) f0_8 ValueError H1 eq_refl eq_refl).
Defined.

Lemma nan_query_answer_witness :
  models_loaded
    {| classifier_model := Some 1%nat;
       score_regressor := Some 2%nat;
       models_loaded := true |} = true
  /\ (if String.eqb "nan" "nan" then Some nan else None) = Some nan
  /\ exists r,
       predict (fun s => if String.eqb s "nan" then Some nan else None) nat
         {| classifier_model := Some 1%nat;
            score_regressor := Some 2%nat;
            models_loaded := true |}
         (Get [("tds", "nan")])
       = inr (ResultBody (Success r))
       /\ potability_status r = "Not Potable"
       /\ risk_level r = "Low"
       /\ action_required r = "None"
       /\ recommendation r
          = "Water is POTABLE. No immediate action needed.".
Proof.
  split; [reflexivity|]. split; [reflexivity|].
  exact (nan_query_answer
           (fun s => if String.eqb s "nan" then Some nan else None) nat
           {| classifier_model := Some 1%nat;
              score_regressor := Some 2%nat;
              models_loaded := true |}
           "nan" eq_refl eq_refl).
Defined.

End HttpFacts.
